(** * gc_query_module: indices of ref/alt genotype pairs in a GC field

    A shallow embedding of [gc_query_module.py] and the properties of its
    three functions:
    - [get_num_of_alleles_from_gc]: number of alleles from the length of
      a GC list;
    - [get_gc_indices_for_alt_allele]: positions of all pairs that
      involve an alt allele;
    - [get_limited_gc_indices_for_alt_allele]: positions of the ref/alt
      and alt/alt pairs only.

    Python integers are unbounded, hence [Z]; Python strings are
    [string]; a Python list is a [list]; [None] as a return value is
    [None] of [option]. *)

From Stdlib Require Import ZArith List String Ascii Bool Lia Sorted.
Import ListNotations.

Local Open Scope string_scope.
Local Open Scope Z_scope.

(** ** The fragment of Python the module uses *)

Module Py.

(** The exceptions the module can raise: [ValueError] explicitly,
    [IndexError] by indexing a list out of range. *)
Inductive exn : Type :=
| ValueError (msg : string)
| IndexError.

(** Result of evaluating an expression that may raise. *)
Inductive outcome (A : Type) : Type :=
| Ok (a : A)
| Raise (e : exn).
Arguments Ok {A} a.
Arguments Raise {A} e.

Definition obind {A B} (o : outcome A) (f : A -> outcome B) : outcome B :=
  match o with
  | Ok a => f a
  | Raise e => Raise e
  end.

(** The values a caller can pass for an argument. [VFloat] stands for a
    float given by mantissa and exponent; no arithmetic is ever done on
    it. *)
Inductive value : Type :=
| VInt (z : Z)
| VBool (b : bool)
| VFloat (mantissa exponent : Z)
| VStr (s : string)
| VNone.

(** [isinstance(v, int)], with the integer when it holds. [bool] is a
    subclass of [int] in Python: [True] is 1 and [False] is 0. *)
Definition isinstance_int (v : value) : option Z :=
  match v with
  | VInt z => Some z
  | VBool b => Some (if b then 1 else 0)
  | _ => None
  end.

(** [range(lo, hi)], as the list of the integers it yields. *)
Fixpoint range_from (lo : Z) (count : nat) : list Z :=
  match count with
  | O => []
  | S c => lo :: range_from (lo + 1) c
  end.

Definition range (lo hi : Z) : list Z := range_from lo (Z.to_nat (hi - lo)).

(** [l[i]]: a negative index counts from the end, and an index outside
    [-len(l) .. len(l) - 1] raises [IndexError]. *)
Definition getitem {A} (l : list A) (i : Z) : outcome A :=
  let len := Z.of_nat (List.length l) in
  let k := if i <? 0 then i + len else i in
  if (k <? 0) || (len <=? k) then Raise IndexError
  else match nth_error l (Z.to_nat k) with
       | Some x => Ok x
       | None => Raise IndexError
       end.

(** [chr(c)] for a code point below 256. *)
Definition chr (c : Z) : string :=
  String (ascii_of_nat (Z.to_nat c)) EmptyString.

(** [s[::-1]]. *)
Definition str_rev (s : string) : string :=
  string_of_list_ascii (rev (list_ascii_of_string s)).

(** [needle in hay] on strings: [needle] occurs as a substring. *)
Fixpoint str_in (needle hay : string) : bool :=
  prefix needle hay ||
  match hay with
  | EmptyString => false
  | String _ rest => str_in needle rest
  end.

(** [x in l] on a list of strings. *)
Definition list_in (x : string) (l : list string) : bool :=
  existsb (String.eqb x) l.

(** [enumerate(l)], counting from [k]. *)
Fixpoint enumerate_from {A} (k : Z) (l : list A) : list (Z * A) :=
  match l with
  | [] => []
  | x :: rest => (k, x) :: enumerate_from (k + 1) rest
  end.

Definition enumerate {A} (l : list A) : list (Z * A) := enumerate_from 0 l.

(** The comprehension [[i for i, x in enumerate(l) if cond(x)]]. *)
Definition indices_where {A} (cond : A -> bool) (l : list A) : list Z :=
  map fst (filter (fun ix => cond (snd ix)) (enumerate l)).

(** [for x in xs: body], the body updating the loop-carried state [s];
    an exception in the body ends the loop. *)
Fixpoint for_each {S} (xs : list Z) (body : Z -> S -> outcome S) (s : S)
  : outcome S :=
  match xs with
  | [] => Ok s
  | x :: rest => obind (body x s) (for_each rest body)
  end.

(** The comprehension [[f(x) for x in xs]] where [f] may raise. *)
Fixpoint map_m {A B} (f : A -> outcome B) (xs : list A) : outcome (list B) :=
  match xs with
  | [] => Ok []
  | x :: rest =>
      obind (f x) (fun y => obind (map_m f rest) (fun ys => Ok (y :: ys)))
  end.

(** *** Statements: standard output and exceptions *)

(** One argument of a call of [print]. *)
Inductive parg : Type :=
| PStr (s : string)
| PInts (l : list Z)
| PStrs (l : list string).

(** What was printed so far: one entry per call of [print], holding its
    arguments. *)
Definition stdout : Type := list (list parg).

(** A statement transforms the standard output and ends with a value
    or an exception; what was printed before an exception stays. *)
Definition M (A : Type) : Type := stdout -> stdout * outcome A.

Definition ret {A} (a : A) : M A := fun out => (out, Ok a).

Definition bind {A B} (m : M A) (f : A -> M B) : M B :=
  fun out =>
    match m out with
    | (out', Ok a) => f a out'
    | (out', Raise e) => (out', Raise e)
    end.

Definition raise {A} (e : exn) : M A := fun out => (out, Raise e).

Definition eval {A} (o : outcome A) : M A := fun out => (out, o).

Definition print (args : list parg) : M unit :=
  fun out => ((out ++ [args])%list, Ok tt).

(** A call from a fresh process: nothing printed yet. *)
Definition run {A} (m : M A) : stdout * outcome A := m [].

End Py.

Import Py.

Declare Scope py_scope.
Delimit Scope py_scope with py.
Notation "x <- m ;; k" := (bind m (fun x => k))
  (at level 61, m at next level, right associativity) : py_scope.
Notation "m ;; k" := (bind m (fun _ => k))
  (at level 61, right associativity) : py_scope.
Local Open Scope py_scope.

(** ** The module *)

(** *** [get_num_of_alleles_from_gc]

    [scan gc_len sum cands] is the loop [for i in cands] started with the
    accumulator [sum]. It yields the candidates whose body was run and
    what the function returns: [Some i] from the [return] inside the
    loop, [None] when the loop ends and the function falls off its end. *)
Fixpoint scan (gc_len sum : Z) (cands : list Z) : list Z * option Z :=
  match cands with
  | [] => ([], None)
  | i :: rest =>
      let sum := sum + i in
      if sum =? gc_len then ([i], Some i)
      else let (visited, r) := scan gc_len sum rest in (i :: visited, r)
  end.

Definition get_num_of_alleles_from_gc_trace (gc_len : Z) : list Z * option Z :=
  scan gc_len 0 (range 1 gc_len).

Definition get_num_of_alleles_from_gc (gc_len : Z) : option Z :=
  snd (get_num_of_alleles_from_gc_trace gc_len).

(** *** The two lookups *)

(** [list(map(chr, range(65, 91)))]: the letters 'A' to 'Z'. *)
Definition generic_allele_lookup_table : list string := map chr (range 65 91).

(** The sanity check of the arguments, the same text in both lookups.
    It yields the two arguments as integers. The tests are made in the
    source's order, [or] evaluating its right operand only when the left
    one is false. *)
Definition check_args (num_alleles alt_idx : value) : M (Z * Z) :=
  match isinstance_int num_alleles with
  | None => raise (ValueError "num_alleles must be integer >= 2")
  | Some n =>
      if n <? 2 then raise (ValueError "num_alleles must be integer >= 2")
      else
        match isinstance_int alt_idx with
        | None => raise (ValueError "alt_idx must be non negative integer")
        | Some a =>
            if a <? 0 then
              raise (ValueError "alt_idx must be non negative integer")
            else if a >? n - 2 then
              raise (ValueError "alt_idx must be <= (num_alleles - 2)")
            else ret (n, a)
        end
  end.

(** The body of the inner loop: one pair appended to [cur_pairs_list]. *)
Definition append_pair (i j : Z) (cur_pairs_list : list string)
  : outcome (list string) :=
  obind (getitem generic_allele_lookup_table i) (fun li =>
  obind (getitem generic_allele_lookup_table j) (fun lj =>
    let ref_alt_pair := li ++ lj in
    let ref_alt_pair := str_rev ref_alt_pair in
    Ok (cur_pairs_list ++ [ref_alt_pair])%list)).

(** The two nested loops, the same text in both lookups. *)
Definition build_pairs (num_alleles : Z) : outcome (list string) :=
  for_each (range 0 num_alleles)
    (fun i cur_pairs_list =>
       for_each (range 0 (i + 1)) (append_pair i) cur_pairs_list)
    [].

Definition get_gc_indices_for_alt_allele
  (num_alleles alt_idx : value) (verbose : bool) : M (list Z) :=
  na <- check_args num_alleles alt_idx ;;
  let (num_alleles, alt_idx) := na in
  let allele_idx := alt_idx + 1 in
  cur_pairs_list <- eval (build_pairs num_alleles) ;;
  alt_allele <- eval (getitem generic_allele_lookup_table allele_idx) ;;
  let indices := indices_where (str_in alt_allele) cur_pairs_list in
  (if verbose then
     print [PStr "   Alt-allele:"; PStr alt_allele] ;;
     print [PStr "   Indices:"; PInts indices] ;;
     print [PStr "   All pairs:"; PStrs cur_pairs_list] ;;
     selected <- eval (map_m (getitem cur_pairs_list) indices) ;;
     print [PStr "   Selected pairs:"; PStrs selected]
   else ret tt) ;;
  ret indices.

Definition get_limited_gc_indices_for_alt_allele
  (num_alleles alt_idx : value) (verbose : bool) : M (list Z) :=
  na <- check_args num_alleles alt_idx ;;
  let (num_alleles, alt_idx) := na in
  let allele_idx := alt_idx + 1 in
  cur_pairs_list <- eval (build_pairs num_alleles) ;;
  alt_allele <- eval (getitem generic_allele_lookup_table allele_idx) ;;
  let limited_pairs := [] in
  let limited_pairs := (limited_pairs ++ [("A" ++ alt_allele)%string])%list in
  let limited_pairs := (limited_pairs ++ [(alt_allele ++ alt_allele)%string])%list in
  let indices :=
    indices_where (fun pair => list_in pair limited_pairs) cur_pairs_list in
  (if verbose then
     print [PStr "   Alt-allele:"; PStr alt_allele] ;;
     print [PStr "   Indices:"; PInts indices] ;;
     print [PStr "   All pairs:"; PStrs cur_pairs_list] ;;
     print [PStr "   Limited pairs:"; PStrs limited_pairs] ;;
     selected <- eval (map_m (getitem cur_pairs_list) indices) ;;
     print [PStr "   Selected pairs:"; PStrs selected]
   else ret tt) ;;
  ret indices.

(** ** Notions used to state the properties *)

(** The arguments pass the sanity check and the allele count fits the
    26 letters of the lookup table. *)
Definition valid (num_alleles alt_idx : Z) : Prop :=
  2 <= num_alleles <= 26 /\ 0 <= alt_idx <= num_alleles - 2.

(** [v] is an integer that is at least [lo]. *)
Definition int_at_least (lo : Z) (v : value) : Prop :=
  exists z, isinstance_int v = Some z /\ lo <= z.

(** [len] is [1 + 2 + ... + k] for some [k >= 1]. *)
Definition triangular (len : Z) : Prop :=
  exists k, 1 <= k /\ len = k * (k + 1) / 2.

(** The letter of allele [i], and the label of the pair of the alleles
    [j] and [i], the letter of [j] first. *)
Definition allele_label (i : Z) : string := chr (65 + i).

Definition pair_label (j i : Z) : string := allele_label j ++ allele_label i.

(** The pairs the inner loop appends for allele [i], and the list the
    two loops build for [n] alleles, in closed form. *)
Definition row (i : Z) : list string :=
  map (fun j => pair_label j i) (range 0 (i + 1)).

Definition pairs_upto (n : Z) : list string := flat_map row (range 0 n).

(** The comprehension of [indices_where] over an enumeration that counts
    from [k]; [indices_where cond l] is [picked cond 0 l]. *)
Definition picked {A} (cond : A -> bool) (k : Z) (l : list A) : list Z :=
  map fst (filter (fun ix => cond (snd ix)) (enumerate_from k l)).

(** The position of the pair of the alleles [j <= i] in the list of
    pairs: the rows of the alleles before [i] hold [1 + ... + i] pairs. *)
Definition position (i j : Z) : Z := i * (i + 1) / 2 + j.

Example ex_full_4_2 :
  snd (run (get_gc_indices_for_alt_allele (VInt 4) (VInt 2) true))
  = Ok [6; 7; 8; 9].
Proof. vm_compute. reflexivity. Qed.

Example ex_limited_4_1 :
  run (get_limited_gc_indices_for_alt_allele (VInt 4) (VInt 1) false)
  = ([], Ok [3; 5]).
Proof. vm_compute. reflexivity. Qed.

Example ex_pairs_3 : build_pairs 3 = Ok ["AA"; "AB"; "BB"; "AC"; "BC"; "CC"].
Proof. vm_compute. reflexivity. Qed.

Example ex_too_many :
  run (get_gc_indices_for_alt_allele (VInt 27) (VInt 0) true)
  = ([], Raise IndexError).
Proof. vm_compute. reflexivity. Qed.

Example ex_count_10 : get_num_of_alleles_from_gc 10 = Some 4.
Proof. reflexivity. Qed.

(** ** Facts about the Python fragment *)

Section RangeFacts.

Lemma range_from_length lo c : List.length (range_from lo c) = c.
Proof. revert lo; induction c; intros; simpl; auto. Qed.

Lemma range_from_snoc lo c :
  range_from lo (S c) = (range_from lo c ++ [lo + Z.of_nat c])%list.
Proof.
  revert lo; induction c as [|c IH]; intros lo.
  - simpl. f_equal. lia.
  - change (range_from lo (S (S c)))
      with (lo :: range_from (lo + 1) (S c)).
    rewrite IH. simpl. do 3 f_equal. lia.
Qed.

Lemma in_range_from x lo c :
  In x (range_from lo c) <-> lo <= x < lo + Z.of_nat c.
Proof.
  revert lo; induction c as [|c IH]; intros lo; simpl.
  - lia.
  - rewrite IH. lia.
Qed.

Lemma in_range x lo hi : In x (range lo hi) <-> lo <= x < hi.
Proof. unfold range. rewrite in_range_from. lia. Qed.

Lemma range_snoc lo hi :
  lo <= hi -> range lo (hi + 1) = (range lo hi ++ [hi])%list.
Proof.
  intros H. unfold range.
  replace (Z.to_nat (hi + 1 - lo)) with (S (Z.to_nat (hi - lo))) by lia.
  rewrite range_from_snoc. do 2 f_equal. lia.
Qed.

Lemma range_empty lo hi : hi <= lo -> range lo hi = [].
Proof.
  intros H. unfold range. replace (Z.to_nat (hi - lo)) with O by lia.
  reflexivity.
Qed.

Lemma nth_error_range_from lo c k :
  (k < c)%nat -> nth_error (range_from lo c) k = Some (lo + Z.of_nat k).
Proof.
  revert lo k; induction c as [|c IH]; intros lo k Hk; [lia|].
  destruct k as [|k]; simpl.
  - f_equal. lia.
  - rewrite IH by lia. f_equal. lia.
Qed.

End RangeFacts.

(** ** [get_num_of_alleles_from_gc] *)

Section AlleleCount.

(** The product of two consecutive integers is even. *)
Lemma twice_triangular k : 2 * (k * (k + 1) / 2) = k * (k + 1).
Proof.
  symmetry. apply Z.div_exact; [lia|].
  destruct (Z.Even_or_Odd k) as [[h ->]|[h ->]].
  - replace (2 * h * (2 * h + 1)) with ((h * (2 * h + 1)) * 2) by ring.
    apply Z.mod_mul. lia.
  - replace ((2 * h + 1) * (2 * h + 1 + 1))
      with (((2 * h + 1) * (h + 1)) * 2) by ring.
    apply Z.mod_mul. lia.
Qed.

(** The loop invariant: before candidate [i] is tried, the accumulator
    holds [1 + ... + (i - 1)]. A matching candidate [k] still ahead is
    the one returned. *)
Lemma scan_finds gc_len k c : forall i sum,
  1 <= i -> 2 * sum = i * (i - 1) ->
  2 * gc_len = k * (k + 1) ->
  i <= k < i + Z.of_nat c ->
  snd (scan gc_len sum (range_from i c)) = Some k.
Proof.
  induction c as [|c IH]; intros i sum Hi Hsum Hlen Hk; [lia|].
  cbn [scan range_from]. destruct (Z.eqb_spec (sum + i) gc_len) as [E|E].
  - cbn [snd]. f_equal.
    destruct (Z.eq_dec i k) as [|N]; [assumption|exfalso].
    assert (i + 1 <= k) by lia.
    assert (i * (i + 1) < k * (k + 1)) by nia.
    lia.
  - assert (i <> k) by (intros ->; apply E; lia).
    specialize (IH (i + 1) (sum + i)).
    destruct (scan gc_len (sum + i) (range_from (i + 1) c)) as [v r].
    cbn [snd] in *. apply IH; lia.
Qed.

(** Whatever the loop returns is a candidate whose partial sum is
    [gc_len]. *)
Lemma scan_sound gc_len c : forall i sum r,
  1 <= i -> 2 * sum = i * (i - 1) ->
  snd (scan gc_len sum (range_from i c)) = Some r ->
  i <= r /\ 2 * gc_len = r * (r + 1).
Proof.
  induction c as [|c IH]; intros i sum r Hi Hsum;
    cbn [scan range_from snd]; [discriminate|].
  destruct (Z.eqb_spec (sum + i) gc_len) as [E|E]; cbn [snd].
  - intros [= <-]. split; lia.
  - specialize (IH (i + 1) (sum + i) r).
    destruct (scan gc_len (sum + i) (range_from (i + 1) c)) as [v r'].
    cbn [snd] in *. intros Hr. destruct IH as [? ?]; auto; lia.
Qed.

(** A loop that returns nothing has tried every candidate. *)
Lemma scan_none_visits_all gc_len cands : forall sum,
  snd (scan gc_len sum cands) = None ->
  fst (scan gc_len sum cands) = cands.
Proof.
  induction cands as [|i rest IH]; intros sum; simpl; [reflexivity|].
  destruct (sum + i =? gc_len); simpl; [discriminate|].
  specialize (IH (sum + i)).
  destruct (scan gc_len (sum + i) rest) as [v r]. cbn [fst snd] in *.
  intros Hr. f_equal. auto.
Qed.

End AlleleCount.

(** ** The lookup table and the list of pairs *)

Section Pairs.

Lemma table_length : List.length generic_allele_lookup_table = 26%nat.
Proof. reflexivity. Qed.

Lemma getitem_in_range {A} (l : list A) i :
  0 <= i < Z.of_nat (List.length l) ->
  exists x, nth_error l (Z.to_nat i) = Some x /\ getitem l i = Ok x.
Proof.
  intros Hi. unfold getitem.
  destruct (Z.ltb_spec i 0); [lia|].
  destruct (Z.ltb_spec i 0); [lia|].
  destruct (Z.leb_spec (Z.of_nat (List.length l)) i); [lia|].
  cbn [orb].
  destruct (nth_error l (Z.to_nat i)) as [x|] eqn:E.
  - exists x. auto.
  - apply nth_error_None in E. lia.
Qed.

Lemma getitem_table i :
  0 <= i < 26 -> getitem generic_allele_lookup_table i = Ok (allele_label i).
Proof.
  intros Hi.
  destruct (getitem_in_range generic_allele_lookup_table i) as (x & Hx & ->).
  { rewrite table_length. lia. }
  f_equal. unfold generic_allele_lookup_table in Hx.
  rewrite nth_error_map in Hx. unfold range in Hx.
  rewrite nth_error_range_from in Hx by (change (Z.to_nat (91 - 65)) with 26%nat; lia).
  unfold option_map in Hx.
  replace (65 + Z.of_nat (Z.to_nat i)) with (65 + i) in Hx by lia.
  now inversion Hx.
Qed.

Lemma getitem_table_above i :
  26 <= i -> getitem generic_allele_lookup_table i = Raise IndexError.
Proof.
  intros Hi. unfold getitem. rewrite table_length.
  destruct (Z.ltb_spec i 0); [lia|].
  destruct (Z.ltb_spec i 0); [lia|].
  destruct (Z.leb_spec (Z.of_nat 26) i); [reflexivity|lia].
Qed.

Lemma append_pair_ok i j cur :
  0 <= i < 26 -> 0 <= j < 26 ->
  append_pair i j cur = Ok (cur ++ [pair_label j i])%list.
Proof.
  intros Hi Hj. unfold append_pair.
  rewrite (getitem_table i Hi), (getitem_table j Hj).
  reflexivity.
Qed.

(** A loop whose body appends to the state some items that depend on
    the loop variable only. *)
Lemma for_each_appends {A} (f : Z -> list A) body xs : forall s,
  (forall x s, In x xs -> body x s = Ok (s ++ f x)%list) ->
  for_each xs body s = Ok (s ++ flat_map f xs)%list.
Proof.
  induction xs as [|x xs IH]; intros s Hbody; cbn [for_each flat_map].
  - now rewrite app_nil_r.
  - rewrite Hbody by (left; reflexivity). cbn [obind].
    rewrite IH by (intros; apply Hbody; now right).
    now rewrite app_assoc.
Qed.

Lemma flat_map_singleton {A B} (f : A -> B) l :
  flat_map (fun x => [f x]) l = map f l.
Proof. induction l; cbn; congruence. Qed.

Lemma inner_loop_ok i cur :
  0 <= i < 26 ->
  for_each (range 0 (i + 1)) (append_pair i) cur = Ok (cur ++ row i)%list.
Proof.
  intros Hi.
  rewrite (for_each_appends (fun j => [pair_label j i])).
  - unfold row. now rewrite flat_map_singleton.
  - intros j s Hj. apply in_range in Hj. apply append_pair_ok; lia.
Qed.

End Pairs.

Section PairList.

Lemma build_pairs_ok n : n <= 26 -> build_pairs n = Ok (pairs_upto n).
Proof.
  intros Hn. unfold build_pairs.
  rewrite (for_each_appends row).
  - reflexivity.
  - intros i s Hi. apply in_range in Hi. apply inner_loop_ok. lia.
Qed.

Lemma pairs_upto_snoc n :
  0 <= n -> pairs_upto (n + 1) = (pairs_upto n ++ row n)%list.
Proof.
  intros Hn. unfold pairs_upto.
  rewrite range_snoc, flat_map_app by lia.
  cbn [flat_map]. now rewrite app_nil_r.
Qed.

Lemma row_length i : 0 <= i -> Z.of_nat (List.length (row i)) = i + 1.
Proof.
  intros Hi. unfold row, range.
  rewrite length_map, range_from_length. lia.
Qed.

Lemma pairs_upto_length n :
  0 <= n -> 2 * Z.of_nat (List.length (pairs_upto n)) = n * (n + 1).
Proof.
  intros Hn. pattern n. apply natlike_ind; [reflexivity | | assumption].
  clear n Hn. intros n Hn IH.
  unfold Z.succ. rewrite pairs_upto_snoc, length_app by assumption.
  pose proof (row_length n Hn). lia.
Qed.

Lemma nth_error_row i j :
  0 <= j <= i -> nth_error (row i) (Z.to_nat j) = Some (pair_label j i).
Proof.
  intros Hj. unfold row, range.
  rewrite nth_error_map, nth_error_range_from by lia.
  unfold option_map. do 2 f_equal. lia.
Qed.

(** The pair of the alleles [j <= i] is at position
    [i * (i + 1) / 2 + j]. *)
Lemma nth_error_pairs_upto n i j :
  0 <= j <= i -> i < n ->
  nth_error (pairs_upto n) (Z.to_nat (i * (i + 1) / 2 + j))
  = Some (pair_label j i).
Proof.
  intros Hj Hi. assert (Hn : 0 <= n) by lia.
  revert Hi. pattern n. apply natlike_ind; [lia | | assumption].
  clear n Hn. intros n Hn IH Hi.
  unfold Z.succ. rewrite pairs_upto_snoc by assumption.
  pose proof (pairs_upto_length n Hn) as HL.
  pose proof (twice_triangular i) as HT.
  set (t := i * (i + 1) / 2) in *.
  destruct (Z.eq_dec i n) as [->|Hne].
  - rewrite nth_error_app2 by lia.
    replace (Z.to_nat (t + j) - List.length (pairs_upto n))%nat
      with (Z.to_nat j) by lia.
    now apply nth_error_row.
  - rewrite nth_error_app1; [apply IH; lia|].
    assert (i + 1 <= n) by lia.
    assert ((i + 1) * (i + 2) <= n * (n + 1)) by nia.
    lia.
Qed.

Lemma in_row s i :
  In s (row i) <-> exists j, 0 <= j <= i /\ s = pair_label j i.
Proof.
  unfold row. rewrite in_map_iff. split.
  - intros (j & <- & Hj). apply in_range in Hj. exists j. split; [lia|easy].
  - intros (j & Hj & ->). exists j. split; [easy|]. apply in_range. lia.
Qed.

Lemma in_pairs_upto s n :
  In s (pairs_upto n) <->
  exists i j, 0 <= j <= i /\ i < n /\ s = pair_label j i.
Proof.
  unfold pairs_upto. rewrite in_flat_map. split.
  - intros (i & Hi & Hs). apply in_range in Hi. apply in_row in Hs.
    destruct Hs as (j & Hj & ->). exists i, j. repeat split; lia.
  - intros (i & j & Hj & Hi & ->). exists i. split.
    + apply in_range. lia.
    + apply in_row. now exists j.
Qed.

(** Distinct alleles have distinct letters. *)
Lemma allele_label_inj i i' :
  0 <= i < 26 -> 0 <= i' < 26 ->
  allele_label i = allele_label i' -> i = i'.
Proof.
  intros Hi Hi' H.
  assert (E : nat_of_ascii (ascii_of_nat (Z.to_nat (65 + i)))
              = nat_of_ascii (ascii_of_nat (Z.to_nat (65 + i')))).
  { exact (f_equal (fun s => match s with
                             | String c _ => nat_of_ascii c
                             | EmptyString => O
                             end) H). }
  rewrite !nat_ascii_embedding in E by lia. lia.
Qed.

Lemma pair_label_chars j i :
  exists cj ci,
    allele_label j = String cj EmptyString /\
    allele_label i = String ci EmptyString /\
    pair_label j i = String cj (String ci EmptyString).
Proof. unfold pair_label, allele_label, chr. now eexists _, _. Qed.

Lemma pair_label_inj j i j' i' :
  0 <= j < 26 -> 0 <= i < 26 -> 0 <= j' < 26 -> 0 <= i' < 26 ->
  pair_label j i = pair_label j' i' -> j = j' /\ i = i'.
Proof.
  intros Hj Hi Hj' Hi' H. split; apply allele_label_inj; try assumption.
  - exact (f_equal (fun s => match s with
                             | String c _ => String c EmptyString
                             | EmptyString => EmptyString
                             end) H).
  - exact (f_equal (fun s => match s with
                             | String _ rest => rest
                             | EmptyString => EmptyString
                             end) H).
Qed.

Lemma NoDup_range_from lo c : NoDup (range_from lo c).
Proof.
  revert lo; induction c as [|c IH]; intros lo; cbn [range_from];
    constructor; [|apply IH].
  rewrite in_range_from. lia.
Qed.

Lemma NoDup_map_inj_in {A B} (f : A -> B) l :
  (forall x y, In x l -> In y l -> f x = f y -> x = y) ->
  NoDup l -> NoDup (map f l).
Proof.
  intros Hinj Hl. induction Hl as [|x l Hx Hl IH]; cbn [map]; constructor.
  - rewrite in_map_iff. intros (y & Hy & Hin).
    apply Hx. rewrite (Hinj x y); auto using in_eq, in_cons.
  - apply IH. intros; apply Hinj; auto using in_cons.
Qed.

Lemma NoDup_row i : 0 <= i < 26 -> NoDup (row i).
Proof.
  intros Hi. unfold row. apply NoDup_map_inj_in.
  - intros x y Hx Hy H. apply in_range in Hx. apply in_range in Hy.
    apply pair_label_inj in H; lia.
  - apply NoDup_range_from.
Qed.

Lemma NoDup_pairs_upto n : 0 <= n <= 26 -> NoDup (pairs_upto n).
Proof.
  intros [Hn Hle]. revert Hle. pattern n.
  apply natlike_ind; [constructor | | assumption].
  clear n Hn. intros n Hn IH Hle.
  unfold Z.succ in *. rewrite pairs_upto_snoc by assumption.
  apply NoDup_app; [apply IH; lia | apply NoDup_row; lia |].
  intros s Hs Hr. apply in_pairs_upto in Hs. apply in_row in Hr.
  destruct Hs as (i & j & Hj & Hi & ->). destruct Hr as (j' & Hj' & H).
  apply pair_label_inj in H; lia.
Qed.

End PairList.

(** ** The comprehensions over [enumerate] *)

Section Comprehension.

Context {A : Type} (cond : A -> bool).

Lemma in_picked l : forall k p,
  In p (picked cond k l) <->
  k <= p /\ exists x, nth_error l (Z.to_nat (p - k)) = Some x /\ cond x = true.
Proof.
  unfold picked.
  induction l as [|a l IH]; intros k p; cbn [enumerate_from filter snd map].
  - split; [intros []|]. intros (_ & x & H & _).
    destruct (Z.to_nat (p - k)); discriminate.
  - assert (Hhere : p = k -> nth_error (a :: l) (Z.to_nat (p - k)) = Some a).
    { intros ->. now replace (k - k) with 0 by lia. }
    assert (Hthere : k + 1 <= p ->
              nth_error (a :: l) (Z.to_nat (p - k))
              = nth_error l (Z.to_nat (p - (k + 1)))).
    { intros H. now replace (Z.to_nat (p - k))
        with (S (Z.to_nat (p - (k + 1)))) by lia. }
    destruct (cond a) eqn:E; cbn [map fst In]; rewrite IH; split.
    + intros [<-|(Hk & x & Hx & Hc)].
      * split; [lia|]. exists a. auto.
      * split; [lia|]. exists x. rewrite Hthere by lia. auto.
    + intros (Hk & x & Hx & Hc).
      destruct (Z.eq_dec k p) as [|N]; [now left|right].
      split; [lia|]. exists x. rewrite <- Hthere by lia. auto.
    + intros (Hk & x & Hx & Hc).
      split; [lia|]. exists x. rewrite Hthere by lia. auto.
    + intros (Hk & x & Hx & Hc).
      destruct (Z.eq_dec k p) as [<-|N].
      * rewrite Hhere in Hx by reflexivity. congruence.
      * split; [lia|]. exists x. rewrite <- Hthere by lia. auto.
Qed.

Lemma picked_sorted l : forall k, StronglySorted Z.lt (picked cond k l).
Proof.
  induction l as [|a l IH]; intros k.
  - constructor.
  - unfold picked. cbn [enumerate_from filter snd].
    destruct (cond a); cbn [map fst]; [|apply IH].
    constructor; [apply IH|].
    apply Forall_forall. intros p Hp. apply in_picked in Hp. lia.
Qed.

Lemma picked_length l : forall k,
  List.length (picked cond k l) = List.length (filter cond l).
Proof.
  unfold picked.
  induction l as [|a l IH]; intros k; cbn [enumerate_from filter snd].
  - reflexivity.
  - destruct (cond a); cbn [map List.length]; rewrite IH; reflexivity.
Qed.

(** A position is selected exactly when the item there satisfies the
    condition. *)
Lemma in_indices_where l p :
  In p (indices_where cond l) <->
  0 <= p /\ exists x, nth_error l (Z.to_nat p) = Some x /\ cond x = true.
Proof.
  change (indices_where cond l) with (picked cond 0 l).
  rewrite in_picked. now rewrite Z.sub_0_r.
Qed.

Lemma indices_where_sorted l : StronglySorted Z.lt (indices_where cond l).
Proof. apply picked_sorted. Qed.

Lemma indices_where_length l :
  List.length (indices_where cond l) = List.length (filter cond l).
Proof. apply picked_length. Qed.

Lemma indices_where_in_range l p :
  In p (indices_where cond l) -> 0 <= p < Z.of_nat (List.length l).
Proof.
  intros (Hp & x & Hx & _)%in_indices_where.
  assert (nth_error l (Z.to_nat p) <> None) as H%nth_error_Some by congruence.
  lia.
Qed.

End Comprehension.

Section Selection.

(** Indexing a list at positions that are all inside it raises
    nothing. *)
Lemma map_m_getitem {A} (l : list A) idxs :
  (forall p, In p idxs -> 0 <= p < Z.of_nat (List.length l)) ->
  exists sel, map_m (getitem l) idxs = Ok sel.
Proof.
  induction idxs as [|p idxs IH]; intros H; cbn [map_m].
  - now exists [].
  - destruct (getitem_in_range l p) as (x & _ & ->); [apply H; now left|].
    destruct IH as (sel & ->); [intros; apply H; now right|].
    now exists (x :: sel).
Qed.

Lemma selected_pairs_ok {A} (cond : A -> bool) l :
  exists sel, map_m (getitem l) (indices_where cond l) = Ok sel.
Proof. apply map_m_getitem. intros p. apply indices_where_in_range. Qed.

End Selection.

(** ** Membership tests on pair labels *)

Section Membership.

(** A one-letter string is in a two-letter string when it is its
    first or its second letter. *)
Lemma str_in_char c a b :
  str_in (String c EmptyString) (String a (String b EmptyString)) = true
  <-> c = a \/ c = b.
Proof.
  cbn [str_in prefix].
  destruct (ascii_dec c a) as [<-|Na], (ascii_dec c b) as [<-|Nb];
    cbn [orb]; intuition congruence.
Qed.

Lemma list_in_two s x y : list_in s [x; y] = true <-> s = x \/ s = y.
Proof.
  unfold list_in. cbn [existsb].
  rewrite !orb_true_iff, !String.eqb_eq. intuition discriminate.
Qed.

Lemma str_in_pair_label m j i :
  0 <= m < 26 -> 0 <= j < 26 -> 0 <= i < 26 ->
  str_in (allele_label m) (pair_label j i) = (m =? j) || (m =? i).
Proof.
  intros Hm Hj Hi.
  destruct (pair_label_chars j i) as (cj & ci & Ej & Ei & Ep).
  destruct (pair_label_chars m m) as (cm & _ & Em & _ & _).
  apply eq_true_iff_eq.
  rewrite Ep, Em, str_in_char, orb_true_iff, !Z.eqb_eq.
  split; (intros [H|H]; [left|right]).
  - apply allele_label_inj; congruence.
  - apply allele_label_inj; congruence.
  - subst j. congruence.
  - subst i. congruence.
Qed.

Lemma one_in_range_from m c : forall lo,
  List.length (filter (Z.eqb m) (range_from lo c))
  = if (lo <=? m) && (m <? lo + Z.of_nat c) then 1%nat else 0%nat.
Proof.
  induction c as [|c IH]; intros lo; cbn [range_from filter].
  - destruct (Z.leb_spec lo m), (Z.ltb_spec m (lo + Z.of_nat 0));
      cbn [andb]; auto; lia.
  - specialize (IH (lo + 1)).
    destruct (Z.eqb_spec m lo) as [->|N]; cbn [List.length]; rewrite IH;
      repeat match goal with
             | |- context [?a <=? ?b] => destruct (Z.leb_spec a b)
             | |- context [?a <? ?b] => destruct (Z.ltb_spec a b)
             end; cbn [andb]; auto; lia.
Qed.

(** How many pairs of one row involve allele [m]. *)
Lemma count_row m i :
  0 <= m < 26 -> 0 <= i < 26 ->
  Z.of_nat (List.length (filter (str_in (allele_label m)) (row i)))
  = if i <? m then 0 else if i =? m then i + 1 else 1.
Proof.
  intros Hm Hi. unfold row. rewrite filter_map_swap, length_map.
  destruct (Z.eqb_spec i m) as [->|N].
  - rewrite (filter_ext_in _ (fun _ => true)).
    + rewrite filter_true. unfold range. rewrite range_from_length.
      destruct (Z.ltb_spec m m); lia.
    + intros j Hj%in_range.
      rewrite str_in_pair_label by lia. rewrite Z.eqb_refl. apply orb_true_r.
  - rewrite (filter_ext_in _ (Z.eqb m)).
    + unfold range. rewrite one_in_range_from.
      destruct (Z.leb_spec 0 m), (Z.ltb_spec m (0 + Z.of_nat (Z.to_nat (i + 1 - 0)))),
        (Z.ltb_spec i m); cbn [andb]; lia.
    + intros j Hj%in_range.
      rewrite str_in_pair_label by lia.
      destruct (Z.eqb_spec m i); [lia|]. apply orb_false_r.
Qed.

(** How many pairs of the whole list involve allele [m]. *)
Lemma count_pairs m n :
  0 <= m < 26 -> 0 <= n <= 26 ->
  Z.of_nat (List.length (filter (str_in (allele_label m)) (pairs_upto n)))
  = if n <=? m then 0 else n.
Proof.
  intros Hm [Hn Hle]. revert Hle. pattern n.
  apply natlike_ind; [ | | assumption].
  - intros _. destruct (Z.leb_spec 0 m); [reflexivity|lia].
  - clear n Hn. intros n Hn IH Hle. unfold Z.succ in *.
    rewrite pairs_upto_snoc, filter_app, length_app, Nat2Z.inj_add
      by assumption.
    rewrite IH, count_row by lia.
    destruct (Z.leb_spec n m), (Z.leb_spec (n + 1) m), (Z.ltb_spec n m),
      (Z.eqb_spec n m); lia.
Qed.

End Membership.

(** ** What the two lookups compute *)

Section Lookups.

Variables (num_alleles alt_idx : value) (n a : Z).
Hypothesis Hn : isinstance_int num_alleles = Some n.
Hypothesis Ha : isinstance_int alt_idx = Some a.
Hypothesis Hvalid : valid n a.

Lemma check_args_ok out : check_args num_alleles alt_idx out = (out, Ok (n, a)).
Proof.
  destruct Hvalid as [Hn' Ha']. unfold check_args. rewrite Hn, Ha.
  destruct (Z.ltb_spec n 2); [lia|].
  destruct (Z.ltb_spec a 0); [lia|].
  destruct (Z.gtb_spec a (n - 2)); [lia|]. reflexivity.
Qed.

(** The full lookup returns the positions of the pairs that contain the
    letter of allele [a + 1]; it prints only when asked to. *)
Lemma full_lookup_run verbose out :
  exists printed,
    get_gc_indices_for_alt_allele num_alleles alt_idx verbose out
    = ((out ++ printed)%list,
       Ok (indices_where (str_in (allele_label (a + 1))) (pairs_upto n)))
    /\ (verbose = false -> printed = []).
Proof.
  destruct Hvalid as [Hn' Ha'].
  unfold get_gc_indices_for_alt_allele, bind, eval.
  rewrite check_args_ok, build_pairs_ok, getitem_table by lia.
  destruct verbose.
  - destruct (selected_pairs_ok (str_in (allele_label (a + 1))) (pairs_upto n))
      as (sel & ->).
    unfold print, ret. rewrite <- !app_assoc.
    eexists. split; [reflexivity|discriminate].
  - unfold ret. exists []. now rewrite app_nil_r.
Qed.

(** The limited lookup returns the positions of the pairs that are one
    of the two labels it builds. *)
Lemma limited_lookup_run verbose out :
  exists printed,
    get_limited_gc_indices_for_alt_allele num_alleles alt_idx verbose out
    = ((out ++ printed)%list,
       Ok (indices_where
             (fun pair => list_in pair ["A" ++ allele_label (a + 1);
                                        allele_label (a + 1)
                                        ++ allele_label (a + 1)])
             (pairs_upto n)))
    /\ (verbose = false -> printed = []).
Proof.
  destruct Hvalid as [Hn' Ha'].
  unfold get_limited_gc_indices_for_alt_allele, bind, eval.
  rewrite check_args_ok, build_pairs_ok, getitem_table by lia.
  cbn [app].
  destruct verbose.
  - match goal with
    | |- context [map_m (getitem ?l) (indices_where ?c ?l)] =>
        destruct (selected_pairs_ok c l) as (sel & ->)
    end.
    unfold print, ret. rewrite <- !app_assoc.
    eexists. split; [reflexivity|discriminate].
  - unfold ret. exists []. now rewrite app_nil_r.
Qed.

End Lookups.

(** ** Allele-count inference: the properties *)

(** C1, as stated, fails at [k = 1]: the triangular number is 1, the
    loop runs over [range(1, 1)], which is empty, and the function
    returns [None], not 1. *)
Lemma alleles_of_length_one_not_found :
  get_num_of_alleles_from_gc (1 * (1 + 1) / 2) = None /\
  ~ (forall k, 1 <= k -> get_num_of_alleles_from_gc (k * (k + 1) / 2) = Some k).
Proof.
  split; [reflexivity|].
  intros H. specialize (H 1 ltac:(lia)). discriminate H.
Qed.

(** C1, amended: for every integer [k >= 2], on the triangular number
    [k * (k + 1) / 2] the function returns [k]; it returns 4 for 10 and
    3 for 6. *)
Theorem alleles_of_triangular_length :
  (forall k, 2 <= k -> get_num_of_alleles_from_gc (k * (k + 1) / 2) = Some k)
  /\ get_num_of_alleles_from_gc 10 = Some 4
  /\ get_num_of_alleles_from_gc 6 = Some 3.
Proof.
  split; [|split; reflexivity].
  intros k Hk. pose proof (twice_triangular k) as HT.
  unfold get_num_of_alleles_from_gc, get_num_of_alleles_from_gc_trace, range.
  apply scan_finds; try lia. nia.
Qed.

Lemma alleles_of_triangular_length_witness :
  2 <= 5 /\ get_num_of_alleles_from_gc (5 * (5 + 1) / 2) = Some 5.
Proof.
  split; [lia|]. apply (proj1 alleles_of_triangular_length 5). lia.
Defined.

(** C7: for a positive length that is not a triangular number, the loop
    tries every candidate from 1 to [length - 1] and the function
    returns [None]; the function has no way to raise on an integer. *)
Theorem alleles_of_other_length_not_found len :
  0 < len -> ~ triangular len ->
  get_num_of_alleles_from_gc len = None /\
  fst (get_num_of_alleles_from_gc_trace len) = range 1 len /\
  (forall i, In i (range 1 len) <-> 1 <= i <= len - 1).
Proof.
  intros Hlen Hnot.
  assert (Hr : get_num_of_alleles_from_gc len = None).
  { unfold get_num_of_alleles_from_gc, get_num_of_alleles_from_gc_trace, range.
    destruct (snd (scan len 0 (range_from 1 (Z.to_nat (len - 1))))) as [r|] eqn:E;
      [exfalso|reflexivity].
    apply scan_sound in E as [Hr1 Hr2]; try lia.
    apply Hnot. exists r. split; [assumption|].
    rewrite <- Hr2, Z.mul_comm. symmetry. apply Z.div_mul. lia. }
  split; [exact Hr|split].
  - now apply scan_none_visits_all.
  - intros i. rewrite in_range. lia.
Qed.

Lemma not_triangular_between len k :
  k * (k + 1) < 2 * len < (k + 1) * (k + 2) -> 0 <= k -> ~ triangular len.
Proof.
  intros Hb Hk (j & Hj & E). pose proof (twice_triangular j) as HT.
  rewrite <- E in HT.
  destruct (Z.le_gt_cases j k); nia.
Qed.

Lemma alleles_of_other_length_not_found_witness :
  (0 < 4 /\ ~ triangular 4) /\
  (get_num_of_alleles_from_gc 4 = None /\
   fst (get_num_of_alleles_from_gc_trace 4) = [1; 2; 3]) /\
  get_num_of_alleles_from_gc 7 = None /\
  get_num_of_alleles_from_gc 11 = None.
Proof.
  assert (H4 : ~ triangular 4) by (apply (not_triangular_between 4 2); lia).
  assert (H7 : ~ triangular 7) by (apply (not_triangular_between 7 3); lia).
  assert (H11 : ~ triangular 11) by (apply (not_triangular_between 11 4); lia).
  split; [split; [lia|exact H4]|].
  split; [|split].
  - pose proof (alleles_of_other_length_not_found 4 ltac:(lia) H4) as (R & V & _).
    split; [exact R|exact V].
  - apply (alleles_of_other_length_not_found 7 ltac:(lia) H7).
  - apply (alleles_of_other_length_not_found 11 ltac:(lia) H11).
Defined.

(** ** The list of pair labels: the properties *)

(** C2: for [2 <= n <= 26] the two loops build a list of
    [n * (n + 1) / 2] labels without duplicates, in which the pair of
    the alleles [(i, j)], [j <= i], stands at position
    [i * (i + 1) / 2 + j], that is in the order (0,0), (1,0), (1,1),
    (2,0), ..., and is the letter of [j] followed by the letter of [i]. *)
Theorem pair_list_enumeration n :
  2 <= n <= 26 ->
  exists pairs,
    build_pairs n = Ok pairs /\
    Z.of_nat (List.length pairs) = n * (n + 1) / 2 /\
    NoDup pairs /\
    forall i j li lj,
      0 <= j <= i -> i < n ->
      getitem generic_allele_lookup_table i = Ok li ->
      getitem generic_allele_lookup_table j = Ok lj ->
      nth_error pairs (Z.to_nat (i * (i + 1) / 2 + j)) = Some (lj ++ li).
Proof.
  intros Hn. exists (pairs_upto n).
  split; [apply build_pairs_ok; lia|].
  split; [|split].
  - pose proof (pairs_upto_length n ltac:(lia)) as HL.
    rewrite <- HL, Z.mul_comm. symmetry. apply Z.div_mul. lia.
  - apply NoDup_pairs_upto. lia.
  - intros i j li lj Hj Hi Eli Elj.
    rewrite getitem_table in Eli, Elj by lia.
    injection Eli as <-. injection Elj as <-.
    now apply nth_error_pairs_upto.
Qed.

Lemma pair_list_enumeration_witness :
  2 <= 3 <= 26 /\
  exists pairs,
    build_pairs 3 = Ok pairs /\
    Z.of_nat (List.length pairs) = 3 * (3 + 1) / 2 /\
    NoDup pairs /\
    forall i j li lj,
      0 <= j <= i -> i < 3 ->
      getitem generic_allele_lookup_table i = Ok li ->
      getitem generic_allele_lookup_table j = Ok lj ->
      nth_error pairs (Z.to_nat (i * (i + 1) / 2 + j)) = Some (lj ++ li).
Proof.
  split; [lia|]. apply (pair_list_enumeration 3). lia.
Defined.

(** ** The two lookups: the properties *)

(** C3: for a valid call the full lookup returns, in ascending order,
    the positions of the list of pairs whose two-letter label has the
    letter at index [alt_idx + 1] of the table as its first or second
    letter; for 4 alleles and index 2 the pairs are AA, AB, BB, AC, BC,
    CC, AD, BD, CD, DD and the result is [6, 7, 8, 9]. *)
Theorem full_lookup_positions :
  (forall num_alleles alt_idx n a verbose,
     isinstance_int num_alleles = Some n ->
     isinstance_int alt_idx = Some a ->
     valid n a ->
     exists pairs t idxs,
       build_pairs n = Ok pairs /\
       getitem generic_allele_lookup_table (a + 1) = Ok (String t EmptyString) /\
       snd (run (get_gc_indices_for_alt_allele num_alleles alt_idx verbose))
       = Ok idxs /\
       StronglySorted Z.lt idxs /\
       forall p,
         In p idxs <->
         0 <= p /\
         exists c1 c2,
           nth_error pairs (Z.to_nat p) = Some (String c1 (String c2 EmptyString))
           /\ (c1 = t \/ c2 = t))
  /\ build_pairs 4
     = Ok ["AA"; "AB"; "BB"; "AC"; "BC"; "CC"; "AD"; "BD"; "CD"; "DD"]
  /\ forall verbose,
       snd (run (get_gc_indices_for_alt_allele (VInt 4) (VInt 2) verbose))
       = Ok [6; 7; 8; 9].
Proof.
  split; [|split; [reflexivity | intros []; vm_compute; reflexivity]].
  intros num_alleles alt_idx n a verbose Hn Ha Hvalid.
  destruct (full_lookup_run num_alleles alt_idx n a Hn Ha Hvalid verbose [])
    as (printed & Hrun & _).
  destruct Hvalid as [Hn' Ha'].
  destruct (pair_label_chars (a + 1) (a + 1)) as (t & _ & Et & _ & _).
  exists (pairs_upto n), t, (indices_where (str_in (allele_label (a + 1)))
                               (pairs_upto n)).
  split; [apply build_pairs_ok; lia|].
  split; [rewrite getitem_table by lia; now rewrite Et|].
  split; [unfold run; now rewrite Hrun|].
  split; [apply indices_where_sorted|].
  intros p. rewrite in_indices_where, Et. split.
  - intros (Hp & s & Hs & Hin). split; [assumption|].
    pose proof (nth_error_In _ _ Hs) as (i & j & _ & _ & ->)%in_pairs_upto.
    destruct (pair_label_chars j i) as (c1 & c2 & _ & _ & E).
    rewrite E in *. exists c1, c2. split; [assumption|].
    apply str_in_char in Hin. intuition congruence.
  - intros (Hp & c1 & c2 & Hs & Hc). split; [assumption|].
    eexists. split; [eassumption|].
    apply str_in_char. intuition congruence.
Qed.

Lemma full_lookup_positions_witness :
  valid 4 2 /\
  exists pairs t idxs,
    build_pairs 4 = Ok pairs /\
    getitem generic_allele_lookup_table (2 + 1) = Ok (String t EmptyString) /\
    snd (run (get_gc_indices_for_alt_allele (VInt 4) (VInt 2) true))
    = Ok idxs /\
    StronglySorted Z.lt idxs /\
    forall p,
      In p idxs <->
      0 <= p /\
      exists c1 c2,
        nth_error pairs (Z.to_nat p) = Some (String c1 (String c2 EmptyString))
        /\ (c1 = t \/ c2 = t).
Proof.
  assert (V : valid 4 2) by (unfold valid; lia).
  split; [exact V|].
  exact (proj1 full_lookup_positions (VInt 4) (VInt 2) 4 2 true
           eq_refl eq_refl V).
Defined.

(** C10: for a valid call the full lookup returns exactly [num_alleles]
    positions, in strictly ascending order. *)
Theorem full_lookup_count num_alleles alt_idx n a verbose :
  isinstance_int num_alleles = Some n ->
  isinstance_int alt_idx = Some a ->
  valid n a ->
  exists idxs,
    snd (run (get_gc_indices_for_alt_allele num_alleles alt_idx verbose))
    = Ok idxs /\
    Z.of_nat (List.length idxs) = n /\
    StronglySorted Z.lt idxs.
Proof.
  intros Hn Ha Hvalid.
  destruct (full_lookup_run num_alleles alt_idx n a Hn Ha Hvalid verbose [])
    as (printed & Hrun & _).
  destruct Hvalid as [Hn' Ha'].
  eexists. split; [unfold run; rewrite Hrun; reflexivity|].
  split; [|apply indices_where_sorted].
  rewrite indices_where_length, count_pairs by lia.
  destruct (Z.leb_spec n (a + 1)); lia.
Qed.

Lemma full_lookup_count_witness :
  valid 5 1 /\
  exists idxs,
    snd (run (get_gc_indices_for_alt_allele (VInt 5) (VInt 1) false))
    = Ok idxs /\
    Z.of_nat (List.length idxs) = 5 /\
    StronglySorted Z.lt idxs.
Proof.
  assert (V : valid 5 1) by (unfold valid; lia).
  split; [exact V|].
  exact (full_lookup_count (VInt 5) (VInt 1) 5 1 false eq_refl eq_refl V).
Defined.

(** C4: for a valid call the limited lookup returns exactly the positions
    whose label is equal to one of the two labels it builds, 'A' followed
    by the target label and the target label twice; for 4 alleles and
    index 1 the target label is C and the result is [3, 5]. *)
Theorem limited_lookup_positions :
  (forall num_alleles alt_idx n a verbose,
     isinstance_int num_alleles = Some n ->
     isinstance_int alt_idx = Some a ->
     valid n a ->
     exists pairs t idxs,
       build_pairs n = Ok pairs /\
       getitem generic_allele_lookup_table (a + 1) = Ok t /\
       snd (run (get_limited_gc_indices_for_alt_allele
                   num_alleles alt_idx verbose))
       = Ok idxs /\
       StronglySorted Z.lt idxs /\
       forall p,
         In p idxs <->
         0 <= p /\
         exists s,
           nth_error pairs (Z.to_nat p) = Some s /\
           (s = "A" ++ t \/ s = t ++ t))
  /\ getitem generic_allele_lookup_table (1 + 1) = Ok "C"
  /\ forall verbose,
       snd (run (get_limited_gc_indices_for_alt_allele
                   (VInt 4) (VInt 1) verbose))
       = Ok [3; 5].
Proof.
  split; [|split; [reflexivity | intros []; vm_compute; reflexivity]].
  intros num_alleles alt_idx n a verbose Hn Ha Hvalid.
  destruct (limited_lookup_run num_alleles alt_idx n a Hn Ha Hvalid verbose [])
    as (printed & Hrun & _).
  destruct Hvalid as [Hn' Ha'].
  eexists (pairs_upto n), (allele_label (a + 1)), _.
  split; [apply build_pairs_ok; lia|].
  split; [apply getitem_table; lia|].
  split; [unfold run; rewrite Hrun; reflexivity|].
  split; [apply indices_where_sorted|].
  intros p. rewrite in_indices_where.
  split; intros (Hp & s & Hs & Hin); (split; [assumption|]);
    exists s; (split; [assumption|]); now apply list_in_two.
Qed.

Lemma limited_lookup_positions_witness :
  valid 4 1 /\
  exists pairs t idxs,
    build_pairs 4 = Ok pairs /\
    getitem generic_allele_lookup_table (1 + 1) = Ok t /\
    snd (run (get_limited_gc_indices_for_alt_allele (VInt 4) (VInt 1) true))
    = Ok idxs /\
    StronglySorted Z.lt idxs /\
    forall p,
      In p idxs <->
      0 <= p /\
      exists s,
        nth_error pairs (Z.to_nat p) = Some s /\
        (s = "A" ++ t \/ s = t ++ t).
Proof.
  assert (V : valid 4 1) by (unfold valid; lia).
  split; [exact V|].
  exact (proj1 limited_lookup_positions (VInt 4) (VInt 1) 4 1 true
           eq_refl eq_refl V).
Defined.

(** C5: both lookups raise [ValueError], with nothing printed and nothing
    else done, when [num_alleles] is not an integer that is at least 2,
    or [alt_idx] is not an integer that is at least 0, or [alt_idx] is
    greater than [num_alleles - 2]. *)
Theorem invalid_arguments_rejected num_alleles alt_idx verbose :
  ~ int_at_least 2 num_alleles \/
  ~ int_at_least 0 alt_idx \/
  (exists n a, isinstance_int num_alleles = Some n /\
               isinstance_int alt_idx = Some a /\ a > n - 2) ->
  exists msg,
    run (get_gc_indices_for_alt_allele num_alleles alt_idx verbose)
    = ([], Raise (ValueError msg)) /\
    run (get_limited_gc_indices_for_alt_allele num_alleles alt_idx verbose)
    = ([], Raise (ValueError msg)).
Proof.
  intros Hbad.
  assert (Hcheck : exists msg,
             check_args num_alleles alt_idx [] = ([], Raise (ValueError msg))).
  { unfold check_args, int_at_least in *.
    destruct (isinstance_int num_alleles) as [n|]; [|now eexists].
    destruct (Z.ltb_spec n 2); [now eexists|].
    destruct (isinstance_int alt_idx) as [a|]; [|now eexists].
    destruct (Z.ltb_spec a 0); [now eexists|].
    destruct (Z.gtb_spec a (n - 2)); [now eexists|].
    exfalso. destruct Hbad as [Bn|[Ba|(n' & a' & [= <-] & [= <-] & Bgt)]].
    - apply Bn. now exists n.
    - apply Ba. now exists a.
    - lia. }
  destruct Hcheck as (msg & Hcheck). exists msg.
  unfold run, get_gc_indices_for_alt_allele,
    get_limited_gc_indices_for_alt_allele, bind.
  rewrite Hcheck. split; reflexivity.
Qed.

Lemma invalid_arguments_rejected_witness :
  ~ int_at_least 2 (VInt 1) /\
  exists msg,
    run (get_gc_indices_for_alt_allele (VInt 1) (VInt 0) true)
    = ([], Raise (ValueError msg)) /\
    run (get_limited_gc_indices_for_alt_allele (VInt 1) (VInt 0) true)
    = ([], Raise (ValueError msg)).
Proof.
  assert (H : ~ int_at_least 2 (VInt 1)).
  { intros (z & E & Hz). injection E as <-. lia. }
  split; [exact H|].
  exact (invalid_arguments_rejected (VInt 1) (VInt 0) true (or_introl H)).
Defined.

(** C6: for a valid call every position the limited lookup returns is
    among the positions the full lookup returns for the same arguments. *)
Theorem limited_within_full num_alleles alt_idx n a verbose verbose' :
  isinstance_int num_alleles = Some n ->
  isinstance_int alt_idx = Some a ->
  valid n a ->
  exists full limited,
    snd (run (get_gc_indices_for_alt_allele num_alleles alt_idx verbose))
    = Ok full /\
    snd (run (get_limited_gc_indices_for_alt_allele
                num_alleles alt_idx verbose'))
    = Ok limited /\
    forall p, In p limited -> In p full.
Proof.
  intros Hn Ha Hvalid.
  destruct (full_lookup_run num_alleles alt_idx n a Hn Ha Hvalid verbose [])
    as (printed & Hfull & _).
  destruct (limited_lookup_run num_alleles alt_idx n a Hn Ha Hvalid verbose' [])
    as (printed' & Hlim & _).
  unfold run. rewrite Hfull, Hlim. eexists _, _.
  split; [reflexivity|]. split; [reflexivity|].
  intros p. rewrite !in_indices_where.
  intros (Hp & s & Hs & Hin). split; [assumption|].
  exists s. split; [assumption|].
  destruct (pair_label_chars (a + 1) (a + 1)) as (t & _ & Et & _ & _).
  rewrite Et in *. apply list_in_two in Hin.
  destruct Hin as [->| ->]; apply str_in_char; auto.
Qed.

Lemma limited_within_full_witness :
  valid 6 3 /\
  exists full limited,
    snd (run (get_gc_indices_for_alt_allele (VInt 6) (VInt 3) true))
    = Ok full /\
    snd (run (get_limited_gc_indices_for_alt_allele (VInt 6) (VInt 3) false))
    = Ok limited /\
    forall p, In p limited -> In p full.
Proof.
  assert (V : valid 6 3) by (unfold valid; lia).
  split; [exact V|].
  exact (limited_within_full (VInt 6) (VInt 3) 6 3 true false
           eq_refl eq_refl V).
Defined.

(** C8: for a valid call each lookup returns the same value with
    [verbose=True] and with [verbose=False]; the value depends on the
    arguments only, neither on the flag nor on what was printed before. *)
Theorem verbose_is_observational num_alleles alt_idx n a :
  isinstance_int num_alleles = Some n ->
  isinstance_int alt_idx = Some a ->
  valid n a ->
  snd (run (get_gc_indices_for_alt_allele num_alleles alt_idx true))
  = snd (run (get_gc_indices_for_alt_allele num_alleles alt_idx false)) /\
  snd (run (get_limited_gc_indices_for_alt_allele num_alleles alt_idx true))
  = snd (run (get_limited_gc_indices_for_alt_allele num_alleles alt_idx false))
  /\
  exists full limited,
    forall verbose out,
      snd (get_gc_indices_for_alt_allele num_alleles alt_idx verbose out)
      = Ok full /\
      snd (get_limited_gc_indices_for_alt_allele
             num_alleles alt_idx verbose out)
      = Ok limited.
Proof.
  intros Hn Ha Hvalid.
  pose proof (full_lookup_run num_alleles alt_idx n a Hn Ha Hvalid) as Hfull.
  pose proof (limited_lookup_run num_alleles alt_idx n a Hn Ha Hvalid) as Hlim.
  assert (Hall : forall verbose out,
             snd (get_gc_indices_for_alt_allele num_alleles alt_idx verbose out)
             = Ok (indices_where (str_in (allele_label (a + 1))) (pairs_upto n))
             /\
             snd (get_limited_gc_indices_for_alt_allele
                    num_alleles alt_idx verbose out)
             = Ok (indices_where
                     (fun pair =>
                        list_in pair ["A" ++ allele_label (a + 1);
                                      allele_label (a + 1)
                                      ++ allele_label (a + 1)])
                     (pairs_upto n))).
  { intros verbose out.
    destruct (Hfull verbose out) as (pf & -> & _).
    destruct (Hlim verbose out) as (pl & -> & _).
    split; reflexivity. }
  unfold run.
  split; [|split].
  - destruct (Hall true []) as [-> _], (Hall false []) as [-> _]. reflexivity.
  - destruct (Hall true []) as [_ ->], (Hall false []) as [_ ->]. reflexivity.
  - eexists _, _. exact Hall.
Qed.

Lemma verbose_is_observational_witness :
  valid 4 2 /\
  snd (run (get_gc_indices_for_alt_allele (VInt 4) (VInt 2) true))
  = snd (run (get_gc_indices_for_alt_allele (VInt 4) (VInt 2) false)) /\
  snd (run (get_limited_gc_indices_for_alt_allele (VInt 4) (VInt 2) true))
  = snd (run (get_limited_gc_indices_for_alt_allele (VInt 4) (VInt 2) false)).
Proof.
  assert (V : valid 4 2) by (unfold valid; lia).
  split; [exact V|].
  pose proof (verbose_is_observational (VInt 4) (VInt 2) 4 2
                eq_refl eq_refl V) as (Hf & Hl & _).
  split; [exact Hf|exact Hl].
Defined.

(** C9: for a call that passes the sanity check with at most 26 alleles,
    the loop indices [i] and [j] and the target index [alt_idx + 1] are
    all inside the 26-letter table, and both lookups end without an
    [IndexError]. *)
Theorem lookups_stay_within_table num_alleles alt_idx n a verbose :
  isinstance_int num_alleles = Some n ->
  isinstance_int alt_idx = Some a ->
  valid n a ->
  (forall i j,
     0 <= j <= i -> i <= n - 1 ->
     0 <= i < Z.of_nat (List.length generic_allele_lookup_table) /\
     0 <= j < Z.of_nat (List.length generic_allele_lookup_table) /\
     exists li lj,
       getitem generic_allele_lookup_table i = Ok li /\
       getitem generic_allele_lookup_table j = Ok lj) /\
  (0 <= a + 1 <= n - 1 /\
   n - 1 < Z.of_nat (List.length generic_allele_lookup_table) /\
   exists t, getitem generic_allele_lookup_table (a + 1) = Ok t) /\
  (exists idxs,
     snd (run (get_gc_indices_for_alt_allele num_alleles alt_idx verbose))
     = Ok idxs) /\
  (exists idxs,
     snd (run (get_limited_gc_indices_for_alt_allele
                 num_alleles alt_idx verbose))
     = Ok idxs).
Proof.
  intros Hn Ha Hvalid.
  destruct (full_lookup_run num_alleles alt_idx n a Hn Ha Hvalid verbose [])
    as (pf & Hfull & _).
  destruct (limited_lookup_run num_alleles alt_idx n a Hn Ha Hvalid verbose [])
    as (pl & Hlim & _).
  destruct Hvalid as [Hn' Ha']. rewrite table_length.
  split; [|split; [|split]].
  - intros i j Hj Hi. split; [lia|]. split; [lia|].
    exists (allele_label i), (allele_label j).
    split; apply getitem_table; lia.
  - split; [lia|]. split; [lia|].
    exists (allele_label (a + 1)). apply getitem_table. lia.
  - unfold run. rewrite Hfull. now eexists.
  - unfold run. rewrite Hlim. now eexists.
Qed.

Lemma lookups_stay_within_table_witness :
  valid 26 24 /\
  (exists idxs,
     snd (run (get_gc_indices_for_alt_allele (VInt 26) (VInt 24) true))
     = Ok idxs) /\
  (exists idxs,
     snd (run (get_limited_gc_indices_for_alt_allele (VInt 26) (VInt 24) true))
     = Ok idxs).
Proof.
  assert (V : valid 26 24) by (unfold valid; lia).
  split; [exact V|].
  pose proof (lookups_stay_within_table (VInt 26) (VInt 24) 26 24 true
                eq_refl eq_refl V) as (_ & _ & Hf & Hl).
  split; [exact Hf|exact Hl].
Defined.

(** ** Allele-count inference: further properties *)

Section AlleleCountMore.


(** The function returns [k] exactly on the sum [1 + ... + k] of at
    least two terms. *)
Theorem alleles_found_iff gc_len k :
  get_num_of_alleles_from_gc gc_len = Some k <->
  2 <= k /\ gc_len = k * (k + 1) / 2.
Proof.
  unfold get_num_of_alleles_from_gc, get_num_of_alleles_from_gc_trace, range.
  split.
  - intros H. pose proof H as H'.
    apply scan_sound in H' as [Hk Hlen]; try lia.
    assert (gc_len = k * (k + 1) / 2) as Hdiv.
    { rewrite <- Hlen, Z.mul_comm. symmetry. apply Z.div_mul. lia. }
    split; [|assumption].
    destruct (Z.eq_dec k 1) as [->|]; [|lia].
    assert (gc_len = 1) as -> by lia. discriminate H.
  - intros [Hk ->]. pose proof (twice_triangular k) as HT.
    apply scan_finds; try lia. nia.
Qed.



(** A length of at most 1 (an empty list, a list of one count, or a
    negative number) gives [None] without any candidate tried. *)
Theorem alleles_of_short_length gc_len :
  gc_len <= 1 -> get_num_of_alleles_from_gc_trace gc_len = ([], None).
Proof.
  intros H. unfold get_num_of_alleles_from_gc_trace.
  now rewrite range_empty by lia.
Qed.

Lemma alleles_of_short_length_witness :
  0 <= 1 /\ get_num_of_alleles_from_gc_trace 0 = ([], None).
Proof.
  split; [lia|]. apply (alleles_of_short_length 0). lia.
Defined.

(** The length of the list of pairs built for [n] alleles gives [n]
    back. *)
Theorem alleles_of_pair_list n :
  2 <= n <= 26 ->
  exists pairs,
    build_pairs n = Ok pairs /\
    get_num_of_alleles_from_gc (Z.of_nat (List.length pairs)) = Some n.
Proof.
  intros Hn. exists (pairs_upto n). split; [apply build_pairs_ok; lia|].
  pose proof (pairs_upto_length n ltac:(lia)) as HL.
  unfold get_num_of_alleles_from_gc, get_num_of_alleles_from_gc_trace, range.
  apply scan_finds; try lia. nia.
Qed.

Lemma alleles_of_pair_list_witness :
  2 <= 7 <= 26 /\
  exists pairs,
    build_pairs 7 = Ok pairs /\
    get_num_of_alleles_from_gc (Z.of_nat (List.length pairs)) = Some 7.
Proof.
  split; [lia|]. apply (alleles_of_pair_list 7). lia.
Defined.

End AlleleCountMore.

(** ** The sanity check and the size of the table: further properties *)

Section Limits.

Lemma range_from_app lo c1 c2 :
  range_from lo (c1 + c2)
  = (range_from lo c1 ++ range_from (lo + Z.of_nat c1) c2)%list.
Proof.
  revert lo; induction c1 as [|c1 IH]; intros lo.
  - cbn [Nat.add range_from app]. f_equal. lia.
  - cbn [Nat.add range_from app]. rewrite IH. do 3 f_equal. lia.
Qed.

Lemma range_split lo mid hi :
  lo <= mid <= hi -> range lo hi = (range lo mid ++ range mid hi)%list.
Proof.
  intros H. unfold range.
  replace (Z.to_nat (hi - lo))
    with (Z.to_nat (mid - lo) + Z.to_nat (hi - mid))%nat by lia.
  rewrite range_from_app. do 2 f_equal. lia.
Qed.

Lemma range_cons lo hi : lo < hi -> range lo hi = lo :: range (lo + 1) hi.
Proof.
  intros H. unfold range.
  replace (Z.to_nat (hi - lo)) with (S (Z.to_nat (hi - (lo + 1)))) by lia.
  reflexivity.
Qed.

Lemma for_each_app {S} (body : Z -> S -> outcome S) xs ys : forall s,
  for_each (xs ++ ys) body s = obind (for_each xs body s) (for_each ys body).
Proof.
  induction xs as [|x xs IH]; intros s; cbn [app for_each obind].
  - reflexivity.
  - destruct (body x s) as [s'|e]; cbn [obind]; [apply IH|reflexivity].
Qed.

(** With more than 26 alleles the loops run out of letters: the row of
    allele 26 raises at its first pair. *)
Lemma build_pairs_too_many n : 26 < n -> build_pairs n = Raise IndexError.
Proof.
  intros Hn. unfold build_pairs.
  rewrite (range_split 0 26 n), for_each_app by lia.
  rewrite (for_each_appends row)
    by (intros i s Hi%in_range; apply inner_loop_ok; lia).
  cbn [obind]. rewrite (range_cons 26 n) by lia. cbn [for_each].
  rewrite (range_cons 0 (26 + 1)) by lia. cbn [for_each].
  unfold append_pair at 1. rewrite getitem_table_above by lia.
  reflexivity.
Qed.

(** The sanity check either passes two integers on or raises one of its
    three errors, and prints nothing. *)
Lemma check_args_cases num_alleles alt_idx :
  (exists n a,
     isinstance_int num_alleles = Some n /\ isinstance_int alt_idx = Some a /\
     2 <= n /\ 0 <= a <= n - 2 /\
     forall out, check_args num_alleles alt_idx out = (out, Ok (n, a))) \/
  (exists msg,
     ~ (exists n a,
          isinstance_int num_alleles = Some n /\
          isinstance_int alt_idx = Some a /\ 2 <= n /\ 0 <= a <= n - 2) /\
     forall out,
       check_args num_alleles alt_idx out = (out, Raise (ValueError msg))).
Proof.
  unfold check_args.
  destruct (isinstance_int num_alleles) as [n|];
    [|right; eexists; split; [intros (? & ? & [=] & _)|reflexivity]].
  destruct (Z.ltb_spec n 2);
    [right; eexists; split;
     [intros (? & ? & [= <-] & _ & ? & _); lia|reflexivity]|].
  destruct (isinstance_int alt_idx) as [a|];
    [|right; eexists; split; [intros (? & ? & _ & [=] & _)|reflexivity]].
  destruct (Z.ltb_spec a 0);
    [right; eexists; split;
     [intros (? & ? & _ & [= <-] & _ & ? & _); lia|reflexivity]|].
  destruct (Z.gtb_spec a (n - 2));
    [right; eexists; split;
     [intros (? & ? & [= <-] & [= <-] & _ & ? & ?); lia|reflexivity]|].
  left. exists n, a. repeat split; auto; lia.
Qed.

End Limits.

Section Outcomes.

Variables (num_alleles alt_idx : value) (verbose : bool).

(** An exception of the sanity check ends both lookups at once. *)
Lemma check_args_raise_ends e :
  check_args num_alleles alt_idx [] = ([], Raise e) ->
  run (get_gc_indices_for_alt_allele num_alleles alt_idx verbose)
  = ([], Raise e) /\
  run (get_limited_gc_indices_for_alt_allele num_alleles alt_idx verbose)
  = ([], Raise e).
Proof.
  intros H.
  unfold run, get_gc_indices_for_alt_allele,
    get_limited_gc_indices_for_alt_allele, bind.
  rewrite H. split; reflexivity.
Qed.

Lemma too_many_ends n a :
  check_args num_alleles alt_idx [] = ([], Ok (n, a)) -> 26 < n ->
  run (get_gc_indices_for_alt_allele num_alleles alt_idx verbose)
  = ([], Raise IndexError) /\
  run (get_limited_gc_indices_for_alt_allele num_alleles alt_idx verbose)
  = ([], Raise IndexError).
Proof.
  intros H Hn.
  unfold run, get_gc_indices_for_alt_allele,
    get_limited_gc_indices_for_alt_allele, bind, eval.
  rewrite H, build_pairs_too_many by assumption. split; reflexivity.
Qed.

End Outcomes.

(** With more than 26 alleles and an index that passes the sanity check,
    both lookups raise [IndexError], and print nothing even when
    verbose. *)
Theorem too_many_alleles_raise num_alleles alt_idx n a verbose :
  isinstance_int num_alleles = Some n ->
  isinstance_int alt_idx = Some a ->
  26 < n -> 0 <= a <= n - 2 ->
  run (get_gc_indices_for_alt_allele num_alleles alt_idx verbose)
  = ([], Raise IndexError) /\
  run (get_limited_gc_indices_for_alt_allele num_alleles alt_idx verbose)
  = ([], Raise IndexError).
Proof.
  intros Hn Ha Hbig Hidx.
  destruct (check_args_cases num_alleles alt_idx)
    as [(n' & a' & Hn' & Ha' & _ & _ & Hok)|(msg & Hnot & _)].
  - assert (n' = n) as -> by congruence. assert (a' = a) as -> by congruence.
    apply (too_many_ends _ _ _ n a); [apply Hok|assumption].
  - exfalso. apply Hnot. exists n, a. repeat split; auto; lia.
Qed.

Lemma too_many_alleles_raise_witness :
  (26 < 27 /\ 0 <= 0 <= 27 - 2) /\
  run (get_gc_indices_for_alt_allele (VInt 27) (VInt 0) true)
  = ([], Raise IndexError) /\
  run (get_limited_gc_indices_for_alt_allele (VInt 27) (VInt 0) true)
  = ([], Raise IndexError).
Proof.
  split; [lia|].
  apply (too_many_alleles_raise (VInt 27) (VInt 0) 27 0 true eq_refl eq_refl);
    lia.
Defined.

(** A lookup returns a list exactly when both arguments are integers,
    [2 <= num_alleles <= 26] and [0 <= alt_idx <= num_alleles - 2]; every
    other call raises. *)
Theorem lookup_returns_iff_valid num_alleles alt_idx verbose :
  ((exists idxs,
      snd (run (get_gc_indices_for_alt_allele num_alleles alt_idx verbose))
      = Ok idxs) <->
   (exists n a, isinstance_int num_alleles = Some n /\
                isinstance_int alt_idx = Some a /\ valid n a)) /\
  ((exists idxs,
      snd (run (get_limited_gc_indices_for_alt_allele
                  num_alleles alt_idx verbose))
      = Ok idxs) <->
   (exists n a, isinstance_int num_alleles = Some n /\
                isinstance_int alt_idx = Some a /\ valid n a)).
Proof.
  assert (Hback : forall n a,
             isinstance_int num_alleles = Some n ->
             isinstance_int alt_idx = Some a -> valid n a ->
             (exists idxs,
                snd (run (get_gc_indices_for_alt_allele
                            num_alleles alt_idx verbose)) = Ok idxs) /\
             (exists idxs,
                snd (run (get_limited_gc_indices_for_alt_allele
                            num_alleles alt_idx verbose)) = Ok idxs)).
  { intros n a Hn Ha Hv.
    destruct (full_lookup_run _ _ n a Hn Ha Hv verbose []) as (pf & Hf & _).
    destruct (limited_lookup_run _ _ n a Hn Ha Hv verbose []) as (pl & Hl & _).
    unfold run. rewrite Hf, Hl. split; now eexists. }
  assert (Hforth :
            (exists n a, isinstance_int num_alleles = Some n /\
                         isinstance_int alt_idx = Some a /\ valid n a) \/
            (exists e,
               run (get_gc_indices_for_alt_allele num_alleles alt_idx verbose)
               = ([], Raise e) /\
               run (get_limited_gc_indices_for_alt_allele
                      num_alleles alt_idx verbose)
               = ([], Raise e))).
  { destruct (check_args_cases num_alleles alt_idx)
      as [(n & a & Hn & Ha & Hn2 & Ha2 & Hok)|(msg & _ & Hraise)].
    - destruct (Z.le_gt_cases n 26).
      + left. exists n, a. unfold valid. repeat split; auto; lia.
      + right. exists IndexError.
        apply (too_many_ends _ _ _ n a); [apply Hok|lia].
    - right. exists (ValueError msg).
      apply check_args_raise_ends, Hraise. }
  split; (split; [intros (idxs & Hidxs)|]).
  - destruct Hforth as [H|(e & Hf & _)]; [exact H|].
    rewrite Hf in Hidxs. discriminate Hidxs.
  - intros (n & a & Hn & Ha & Hv). apply (Hback n a Hn Ha Hv).
  - destruct Hforth as [H|(e & _ & Hl)]; [exact H|].
    rewrite Hl in Hidxs. discriminate Hidxs.
  - intros (n & a & Hn & Ha & Hv). apply (Hback n a Hn Ha Hv).
Qed.

(** The message of the [ValueError] names the first test that failed:
    the one on [num_alleles] comes first, then integer and sign of
    [alt_idx], then its upper bound. *)
Theorem value_error_messages num_alleles alt_idx verbose :
  let full := run (get_gc_indices_for_alt_allele num_alleles alt_idx verbose) in
  let limited :=
    run (get_limited_gc_indices_for_alt_allele num_alleles alt_idx verbose) in
  (~ int_at_least 2 num_alleles ->
   full = ([], Raise (ValueError "num_alleles must be integer >= 2")) /\
   limited = ([], Raise (ValueError "num_alleles must be integer >= 2"))) /\
  (int_at_least 2 num_alleles -> ~ int_at_least 0 alt_idx ->
   full = ([], Raise (ValueError "alt_idx must be non negative integer")) /\
   limited = ([], Raise (ValueError "alt_idx must be non negative integer"))) /\
  (forall n a,
     isinstance_int num_alleles = Some n -> isinstance_int alt_idx = Some a ->
     2 <= n -> 0 <= a -> a > n - 2 ->
     full = ([], Raise (ValueError "alt_idx must be <= (num_alleles - 2)")) /\
     limited
     = ([], Raise (ValueError "alt_idx must be <= (num_alleles - 2)"))).
Proof.
  cbv zeta. unfold int_at_least.
  split; [|split].
  - intros Hbad. apply check_args_raise_ends. unfold check_args.
    destruct (isinstance_int num_alleles) as [n|]; [|reflexivity].
    destruct (Z.ltb_spec n 2); [reflexivity|].
    exfalso. apply Hbad. now exists n.
  - intros (n & Hn & Hn2) Hbad. apply check_args_raise_ends.
    unfold check_args. rewrite Hn.
    destruct (Z.ltb_spec n 2); [lia|].
    destruct (isinstance_int alt_idx) as [a|]; [|reflexivity].
    destruct (Z.ltb_spec a 0); [reflexivity|].
    exfalso. apply Hbad. now exists a.
  - intros n a Hn Ha Hn2 Ha0 Hgt. apply check_args_raise_ends.
    unfold check_args. rewrite Hn, Ha.
    destruct (Z.ltb_spec n 2); [lia|].
    destruct (Z.ltb_spec a 0); [lia|].
    destruct (Z.gtb_spec a (n - 2)); [reflexivity|lia].
Qed.

Lemma value_error_messages_witness :
  (int_at_least 2 (VInt 3) /\ ~ int_at_least 0 (VFloat 1 0)) /\
  run (get_gc_indices_for_alt_allele (VInt 3) (VFloat 1 0) true)
  = ([], Raise (ValueError "alt_idx must be non negative integer")) /\
  run (get_limited_gc_indices_for_alt_allele (VInt 3) (VFloat 1 0) true)
  = ([], Raise (ValueError "alt_idx must be non negative integer")).
Proof.
  assert (H1 : int_at_least 2 (VInt 3)) by (exists 3; split; [reflexivity|lia]).
  assert (H2 : ~ int_at_least 0 (VFloat 1 0)).
  { intros (z & E & _). discriminate E. }
  split; [split; assumption|].
  exact (proj1 (proj2 (value_error_messages (VInt 3) (VFloat 1 0) true)) H1 H2).
Defined.

(** ** Where the pairs of an allele are *)

Section Positions.

Lemma position_bounds i j :
  0 <= j <= i ->
  i * (i + 1) <= 2 * position i j < (i + 1) * (i + 2).
Proof.
  intros Hj. unfold position. pose proof (twice_triangular i). lia.
Qed.

(** Different pairs have different positions. *)
Lemma position_inj i j i' j' :
  0 <= j <= i -> 0 <= j' <= i' ->
  position i j = position i' j' -> i = i' /\ j = j'.
Proof.
  intros Hj Hj' E.
  pose proof (position_bounds i j Hj) as B.
  pose proof (position_bounds i' j' Hj') as B'.
  assert (i = i') as <-.
  { destruct (Z.lt_trichotomy i i') as [L|[L|L]]; [exfalso|assumption|exfalso].
    - assert ((i + 1) * (i + 2) <= i' * (i' + 1)) by nia. lia.
    - assert ((i' + 1) * (i' + 2) <= i * (i + 1)) by nia. lia. }
  split; [reflexivity|]. unfold position in E. lia.
Qed.

Lemma position_in_list n i j :
  0 <= j <= i -> i < n ->
  0 <= position i j < Z.of_nat (List.length (pairs_upto n)).
Proof.
  intros Hj Hi.
  pose proof (position_bounds i j Hj) as B.
  pose proof (pairs_upto_length n ltac:(lia)) as HL.
  assert ((i + 1) * (i + 2) <= n * (n + 1)) by nia.
  split; [nia|lia].
Qed.

(** A label of the list stands at the position of its pair and nowhere
    else. *)
Lemma label_at_iff n i j p :
  n <= 26 -> 0 <= j <= i -> i < n -> 0 <= p ->
  nth_error (pairs_upto n) (Z.to_nat p) = Some (pair_label j i) <->
  p = position i j.
Proof.
  intros Hn Hj Hi Hp. split.
  - intros H.
    pose proof (nth_error_pairs_upto n i j Hj Hi) as H'.
    fold (position i j) in H'.
    pose proof (position_in_list n i j Hj Hi) as B.
    assert (Z.to_nat p = Z.to_nat (position i j)); [|lia].
    apply (proj1 (NoDup_nth_error (pairs_upto n))).
    + apply NoDup_pairs_upto. lia.
    + apply nth_error_Some. congruence.
    + congruence.
  - intros ->. now apply nth_error_pairs_upto.
Qed.

(** The positions the full lookup selects for allele [m]. *)
Lemma in_full_iff n m p :
  n <= 26 -> 0 <= m < 26 ->
  In p (indices_where (str_in (allele_label m)) (pairs_upto n)) <->
  exists i j, 0 <= j <= i /\ i < n /\ (j = m \/ i = m) /\ p = position i j.
Proof.
  intros Hn Hm. rewrite in_indices_where. split.
  - intros (Hp & s & Hs & Hin).
    pose proof (nth_error_In _ _ Hs) as (i & j & Hj & Hi & ->)%in_pairs_upto.
    rewrite str_in_pair_label in Hin by lia.
    apply orb_true_iff in Hin. rewrite !Z.eqb_eq in Hin.
    exists i, j. repeat split; try lia.
    now apply (label_at_iff n i j p).
  - intros (i & j & Hj & Hi & Hm' & ->).
    pose proof (position_in_list n i j Hj Hi) as B.
    split; [lia|]. exists (pair_label j i).
    split; [now apply nth_error_pairs_upto|].
    rewrite str_in_pair_label by lia.
    apply orb_true_iff. rewrite !Z.eqb_eq. lia.
Qed.

(** The positions the limited lookup selects for allele [m]. *)
Lemma in_limited_iff n m p :
  n <= 26 -> 0 <= m < n ->
  In p (indices_where
          (fun pair => list_in pair ["A" ++ allele_label m;
                                     allele_label m ++ allele_label m])
          (pairs_upto n)) <->
  p = position m 0 \/ p = position m m.
Proof.
  intros Hn Hm. rewrite in_indices_where.
  change ("A" ++ allele_label m) with (pair_label 0 m).
  change (allele_label m ++ allele_label m) with (pair_label m m).
  split.
  - intros (Hp & s & Hs & [-> | ->]%list_in_two); [left|right];
      apply (label_at_iff n) in Hs; auto; lia.
  - intros [-> | ->].
    + pose proof (position_in_list n m 0 ltac:(lia) ltac:(lia)).
      split; [lia|]. exists (pair_label 0 m).
      split; [apply label_at_iff; auto; lia|apply list_in_two; auto].
    + pose proof (position_in_list n m m ltac:(lia) ltac:(lia)).
      split; [lia|]. exists (pair_label m m).
      split; [apply label_at_iff; auto; lia|apply list_in_two; auto].
Qed.

(** Two strictly ascending lists with the same members are equal. *)
Lemma sorted_ext (l1 : list Z) : forall l2,
  StronglySorted Z.lt l1 -> StronglySorted Z.lt l2 ->
  (forall p, In p l1 <-> In p l2) -> l1 = l2.
Proof.
  induction l1 as [|x l1 IH]; intros [|y l2] S1 S2 Hin.
  - reflexivity.
  - exfalso. apply (proj2 (Hin y)). now left.
  - exfalso. apply (proj1 (Hin x)). now left.
  - apply StronglySorted_inv in S1 as [S1 F1].
    apply StronglySorted_inv in S2 as [S2 F2].
    rewrite Forall_forall in F1, F2.
    assert (x = y) as <-.
    { destruct (proj1 (Hin x) (or_introl eq_refl)) as [|Hx]; [congruence|].
      destruct (proj2 (Hin y) (or_introl eq_refl)) as [|Hy]; [congruence|].
      specialize (F1 _ Hy). specialize (F2 _ Hx). lia. }
    f_equal. apply IH; auto.
    intros p. split; intros Hp.
    + destruct (proj1 (Hin p) (or_intror Hp)) as [<-|]; [|assumption].
      specialize (F1 _ Hp). lia.
    + destruct (proj2 (Hin p) (or_intror Hp)) as [<-|]; [|assumption].
      specialize (F2 _ Hp). lia.
Qed.

End Positions.

(** For a valid call the limited lookup returns two positions: that of
    the pair of the reference allele with allele [alt_idx + 1], then that
    of the pair of allele [alt_idx + 1] with itself. *)
Theorem limited_lookup_closed_form num_alleles alt_idx n a verbose :
  isinstance_int num_alleles = Some n ->
  isinstance_int alt_idx = Some a ->
  valid n a ->
  snd (run (get_limited_gc_indices_for_alt_allele num_alleles alt_idx verbose))
  = Ok [position (a + 1) 0; position (a + 1) (a + 1)].
Proof.
  intros Hn Ha Hvalid.
  destruct (limited_lookup_run num_alleles alt_idx n a Hn Ha Hvalid verbose [])
    as (printed & Hrun & _).
  destruct Hvalid as [Hn' Ha'].
  unfold run. rewrite Hrun. cbn [snd]. f_equal.
  apply sorted_ext.
  - apply indices_where_sorted.
  - repeat constructor. unfold position. lia.
  - intros p. rewrite in_limited_iff by lia. cbn [In]. intuition.
Qed.

Lemma limited_lookup_closed_form_witness :
  valid 5 2 /\
  snd (run (get_limited_gc_indices_for_alt_allele (VInt 5) (VInt 2) true))
  = Ok [position (2 + 1) 0; position (2 + 1) (2 + 1)].
Proof.
  assert (V : valid 5 2) by (unfold valid; lia).
  split; [exact V|].
  exact (limited_lookup_closed_form (VInt 5) (VInt 2) 5 2 true
           eq_refl eq_refl V).
Defined.

(** For a valid call the full lookup returns the positions of the pairs
    of allele [m = alt_idx + 1] with the alleles [0 .. m], and those of
    the pairs of the alleles [m + 1 .. num_alleles - 1] with [m]. *)
Theorem full_lookup_members num_alleles alt_idx n a verbose :
  isinstance_int num_alleles = Some n ->
  isinstance_int alt_idx = Some a ->
  valid n a ->
  exists idxs,
    snd (run (get_gc_indices_for_alt_allele num_alleles alt_idx verbose))
    = Ok idxs /\
    forall p,
      In p idxs <->
      (exists j, 0 <= j <= a + 1 /\ p = position (a + 1) j) \/
      (exists i, a + 1 < i < n /\ p = position i (a + 1)).
Proof.
  intros Hn Ha Hvalid.
  destruct (full_lookup_run num_alleles alt_idx n a Hn Ha Hvalid verbose [])
    as (printed & Hrun & _).
  destruct Hvalid as [Hn' Ha'].
  eexists. split; [unfold run; rewrite Hrun; reflexivity|].
  intros p. rewrite in_full_iff by lia. split.
  - intros (i & j & Hj & Hi & Hm & ->).
    destruct (Z.eq_dec i (a + 1)) as [->|N].
    + left. exists j. split; [lia|reflexivity].
    + right. exists i. assert (j = a + 1) as -> by lia.
      split; [lia|reflexivity].
  - intros [(j & Hj & ->)|(i & Hi & ->)].
    + exists (a + 1), j. repeat split; lia.
    + exists i, (a + 1). repeat split; lia.
Qed.

Lemma full_lookup_members_witness :
  valid 4 0 /\
  exists idxs,
    snd (run (get_gc_indices_for_alt_allele (VInt 4) (VInt 0) false))
    = Ok idxs /\
    forall p,
      In p idxs <->
      (exists j, 0 <= j <= 0 + 1 /\ p = position (0 + 1) j) \/
      (exists i, 0 + 1 < i < 4 /\ p = position i (0 + 1)).
Proof.
  assert (V : valid 4 0) by (unfold valid; lia).
  split; [exact V|].
  exact (full_lookup_members (VInt 4) (VInt 0) 4 0 false eq_refl eq_refl V).
Defined.

(** For a valid call every position either lookup returns is a position
    of a GC list of [n * (n + 1) / 2] counts, and is never position 0,
    the pair of the reference allele with itself. *)
Theorem lookup_positions_in_gc num_alleles alt_idx n a verbose :
  isinstance_int num_alleles = Some n ->
  isinstance_int alt_idx = Some a ->
  valid n a ->
  exists full limited,
    snd (run (get_gc_indices_for_alt_allele num_alleles alt_idx verbose))
    = Ok full /\
    snd (run (get_limited_gc_indices_for_alt_allele
                num_alleles alt_idx verbose))
    = Ok limited /\
    forall p, In p full \/ In p limited -> 0 < p < n * (n + 1) / 2.
Proof.
  intros Hn Ha Hvalid.
  destruct (full_lookup_run num_alleles alt_idx n a Hn Ha Hvalid verbose [])
    as (pf & Hfull & _).
  destruct (limited_lookup_run num_alleles alt_idx n a Hn Ha Hvalid verbose [])
    as (pl & Hlim & _).
  destruct Hvalid as [Hn' Ha'].
  unfold run. rewrite Hfull, Hlim. eexists _, _.
  split; [reflexivity|]. split; [reflexivity|].
  assert (Hpos : forall i j,
             0 <= j <= i -> i < n -> 1 <= i ->
             0 < position i j < n * (n + 1) / 2).
  { intros i j Hj Hi Hi1.
    pose proof (position_in_list n i j Hj Hi) as B.
    pose proof (pairs_upto_length n ltac:(lia)) as HL.
    pose proof (twice_triangular n) as HT.
    pose proof (position_bounds i j Hj) as B'.
    split; [nia|lia]. }
  intros p [Hp|Hp].
  - apply in_full_iff in Hp as (i & j & Hj & Hi & Hm & ->); try lia.
    apply Hpos; lia.
  - apply in_limited_iff in Hp as [-> | ->]; try lia; apply Hpos; lia.
Qed.

Lemma lookup_positions_in_gc_witness :
  valid 3 1 /\
  exists full limited,
    snd (run (get_gc_indices_for_alt_allele (VInt 3) (VInt 1) true))
    = Ok full /\
    snd (run (get_limited_gc_indices_for_alt_allele (VInt 3) (VInt 1) true))
    = Ok limited /\
    forall p, In p full \/ In p limited -> 0 < p < 3 * (3 + 1) / 2.
Proof.
  assert (V : valid 3 1) by (unfold valid; lia).
  split; [exact V|].
  exact (lookup_positions_in_gc (VInt 3) (VInt 1) 3 1 true eq_refl eq_refl V).
Defined.

(** For one allele count, the full lookups of two different alt alleles
    share exactly one position: that of the pair of the two alleles. *)
Theorem full_lookups_share_one num_alleles alt_idx alt_idx' n a a' verbose :
  isinstance_int num_alleles = Some n ->
  isinstance_int alt_idx = Some a ->
  isinstance_int alt_idx' = Some a' ->
  valid n a -> valid n a' -> a < a' ->
  exists idxs idxs',
    snd (run (get_gc_indices_for_alt_allele num_alleles alt_idx verbose))
    = Ok idxs /\
    snd (run (get_gc_indices_for_alt_allele num_alleles alt_idx' verbose))
    = Ok idxs' /\
    forall p, In p idxs /\ In p idxs' <-> p = position (a' + 1) (a + 1).
Proof.
  intros Hn Ha Ha' Hv Hv' Hlt.
  destruct (full_lookup_run num_alleles alt_idx n a Hn Ha Hv verbose [])
    as (pf & Hrun & _).
  destruct (full_lookup_run num_alleles alt_idx' n a' Hn Ha' Hv' verbose [])
    as (pf' & Hrun' & _).
  destruct Hv as [Hn1 Ha1], Hv' as [_ Ha1'].
  unfold run. rewrite Hrun, Hrun'. eexists _, _.
  split; [reflexivity|]. split; [reflexivity|].
  intros p. rewrite !in_full_iff by lia. split.
  - intros [(i & j & Hj & Hi & Hm & ->) (i' & j' & Hj' & Hi' & Hm' & E)].
    apply position_inj in E as [<- <-]; try lia.
    assert (j = a + 1 /\ i = a' + 1) as [-> ->] by lia. reflexivity.
  - intros ->. split; exists (a' + 1), (a + 1); repeat split; lia.
Qed.

Lemma full_lookups_share_one_witness :
  (valid 4 0 /\ valid 4 2 /\ 0 < 2) /\
  exists idxs idxs',
    snd (run (get_gc_indices_for_alt_allele (VInt 4) (VInt 0) false))
    = Ok idxs /\
    snd (run (get_gc_indices_for_alt_allele (VInt 4) (VInt 2) false))
    = Ok idxs' /\
    forall p, In p idxs /\ In p idxs' <-> p = position (2 + 1) (0 + 1).
Proof.
  assert (V : valid 4 0) by (unfold valid; lia).
  assert (V' : valid 4 2) by (unfold valid; lia).
  split; [repeat split; assumption || lia|].
  apply (full_lookups_share_one (VInt 4) (VInt 0) (VInt 2) 4 0 2 false
           eq_refl eq_refl eq_refl V V').
  lia.
Defined.

(** ** What verbose prints *)

Section Printing.

(** Indexing a list at the positions a comprehension selected gives the
    selected items back, in order. *)
Lemma selected_from {A} (cond : A -> bool) l : forall pre,
  map_m (getitem (pre ++ l)) (picked cond (Z.of_nat (List.length pre)) l)
  = Ok (filter cond l).
Proof.
  induction l as [|x l IH]; intros pre; [reflexivity|].
  assert (Hnext : map_m (getitem (pre ++ x :: l))
                    (picked cond (Z.of_nat (List.length pre) + 1) l)
                  = Ok (filter cond l)).
  { specialize (IH (pre ++ [x])%list).
    rewrite <- app_assoc, length_app in IH. cbn [app List.length] in IH.
    replace (Z.of_nat (List.length pre + 1))
      with (Z.of_nat (List.length pre) + 1) in IH by lia.
    exact IH. }
  unfold picked in *. cbn [enumerate_from filter snd].
  destruct (cond x); [|exact Hnext].
  cbn [map fst map_m].
  destruct (getitem_in_range (pre ++ x :: l) (Z.of_nat (List.length pre)))
    as (y & Hy & ->).
  { rewrite length_app. cbn [List.length]. lia. }
  rewrite Nat2Z.id, nth_error_app2, Nat.sub_diag in Hy by lia.
  cbn [nth_error] in Hy. injection Hy as <-.
  cbn [obind]. rewrite Hnext. reflexivity.
Qed.

Lemma selected_are_filtered {A} (cond : A -> bool) l :
  map_m (getitem l) (indices_where cond l) = Ok (filter cond l).
Proof. exact (selected_from cond l []). Qed.

Lemma limited_indices_closed n m :
  n <= 26 -> 1 <= m < n ->
  indices_where
    (fun pair => list_in pair ["A" ++ allele_label m;
                               allele_label m ++ allele_label m])
    (pairs_upto n)
  = [position m 0; position m m].
Proof.
  intros Hn Hm. apply sorted_ext.
  - apply indices_where_sorted.
  - repeat constructor. unfold position. lia.
  - intros p. rewrite in_limited_iff by lia. cbn [In]. intuition.
Qed.

Lemma getitem_position n i j :
  0 <= j <= i -> i < n ->
  getitem (pairs_upto n) (position i j) = Ok (pair_label j i).
Proof.
  intros Hj Hi.
  destruct (getitem_in_range (pairs_upto n) (position i j)) as (s & Hs & ->).
  { now apply position_in_list. }
  unfold position in Hs. rewrite nth_error_pairs_upto in Hs by assumption.
  congruence.
Qed.

End Printing.

(** For a valid call the verbose full lookup prints four lines and
    nothing else: the letter, the positions it returns, all the pairs,
    and the selected pairs, which are the pairs that contain the letter,
    in the order of the list. Without verbose it prints nothing. *)
Theorem full_lookup_prints num_alleles alt_idx n a :
  isinstance_int num_alleles = Some n ->
  isinstance_int alt_idx = Some a ->
  valid n a ->
  exists pairs t idxs,
    build_pairs n = Ok pairs /\
    getitem generic_allele_lookup_table (a + 1) = Ok t /\
    run (get_gc_indices_for_alt_allele num_alleles alt_idx true)
    = ([[PStr "   Alt-allele:"; PStr t];
        [PStr "   Indices:"; PInts idxs];
        [PStr "   All pairs:"; PStrs pairs];
        [PStr "   Selected pairs:"; PStrs (filter (str_in t) pairs)]],
       Ok idxs) /\
    run (get_gc_indices_for_alt_allele num_alleles alt_idx false)
    = ([], Ok idxs).
Proof.
  intros Hn Ha Hvalid. pose proof Hvalid as [Hn' Ha'].
  eexists (pairs_upto n), (allele_label (a + 1)), _.
  split; [apply build_pairs_ok; lia|].
  split; [apply getitem_table; lia|].
  unfold run, get_gc_indices_for_alt_allele, bind, eval.
  rewrite (check_args_ok _ _ n a Hn Ha Hvalid).
  rewrite build_pairs_ok, getitem_table, selected_are_filtered by lia.
  split; reflexivity.
Qed.

Lemma full_lookup_prints_witness :
  valid 3 0 /\
  exists pairs t idxs,
    build_pairs 3 = Ok pairs /\
    getitem generic_allele_lookup_table (0 + 1) = Ok t /\
    run (get_gc_indices_for_alt_allele (VInt 3) (VInt 0) true)
    = ([[PStr "   Alt-allele:"; PStr t];
        [PStr "   Indices:"; PInts idxs];
        [PStr "   All pairs:"; PStrs pairs];
        [PStr "   Selected pairs:"; PStrs (filter (str_in t) pairs)]],
       Ok idxs) /\
    run (get_gc_indices_for_alt_allele (VInt 3) (VInt 0) false)
    = ([], Ok idxs).
Proof.
  assert (V : valid 3 0) by (unfold valid; lia).
  split; [exact V|].
  exact (full_lookup_prints (VInt 3) (VInt 0) 3 0 eq_refl eq_refl V).
Defined.

(** For a valid call the verbose limited lookup prints five lines and
    nothing else; the selected pairs it prints last are the two limited
    pairs it prints before them, so both built labels are found in the
    list. Without verbose it prints nothing. *)
Theorem limited_lookup_prints num_alleles alt_idx n a :
  isinstance_int num_alleles = Some n ->
  isinstance_int alt_idx = Some a ->
  valid n a ->
  exists pairs t idxs,
    build_pairs n = Ok pairs /\
    getitem generic_allele_lookup_table (a + 1) = Ok t /\
    run (get_limited_gc_indices_for_alt_allele num_alleles alt_idx true)
    = ([[PStr "   Alt-allele:"; PStr t];
        [PStr "   Indices:"; PInts idxs];
        [PStr "   All pairs:"; PStrs pairs];
        [PStr "   Limited pairs:"; PStrs ["A" ++ t; t ++ t]];
        [PStr "   Selected pairs:"; PStrs ["A" ++ t; t ++ t]]],
       Ok idxs) /\
    run (get_limited_gc_indices_for_alt_allele num_alleles alt_idx false)
    = ([], Ok idxs).
Proof.
  intros Hn Ha Hvalid. pose proof Hvalid as [Hn' Ha'].
  eexists (pairs_upto n), (allele_label (a + 1)), _.
  split; [apply build_pairs_ok; lia|].
  split; [apply getitem_table; lia|].
  unfold run, get_limited_gc_indices_for_alt_allele, bind, eval.
  rewrite (check_args_ok _ _ n a Hn Ha Hvalid).
  rewrite build_pairs_ok, getitem_table by lia.
  cbn [app]. rewrite limited_indices_closed by lia.
  cbn [map_m]. rewrite !getitem_position by lia.
  split; reflexivity.
Qed.

Lemma limited_lookup_prints_witness :
  valid 3 0 /\
  exists pairs t idxs,
    build_pairs 3 = Ok pairs /\
    getitem generic_allele_lookup_table (0 + 1) = Ok t /\
    run (get_limited_gc_indices_for_alt_allele (VInt 3) (VInt 0) true)
    = ([[PStr "   Alt-allele:"; PStr t];
        [PStr "   Indices:"; PInts idxs];
        [PStr "   All pairs:"; PStrs pairs];
        [PStr "   Limited pairs:"; PStrs ["A" ++ t; t ++ t]];
        [PStr "   Selected pairs:"; PStrs ["A" ++ t; t ++ t]]],
       Ok idxs) /\
    run (get_limited_gc_indices_for_alt_allele (VInt 3) (VInt 0) false)
    = ([], Ok idxs).
Proof.
  assert (V : valid 3 0) by (unfold valid; lia).
  split; [exact V|].
  exact (limited_lookup_prints (VInt 3) (VInt 0) 3 0 eq_refl eq_refl V).
Defined.

(** ** The functions together *)

Lemma found_is_triangular gc_len k :
  get_num_of_alleles_from_gc gc_len = Some k ->
  2 <= k /\ 2 * gc_len = k * (k + 1).
Proof.
  unfold get_num_of_alleles_from_gc, get_num_of_alleles_from_gc_trace, range.
  intros H. pose proof H as H'.
  apply scan_sound in H' as [Hk Hlen]; try lia.
  split; [|assumption].
  destruct (Z.eq_dec k 1) as [->|]; [|lia].
  assert (gc_len = 1) as -> by lia. discriminate H.
Qed.

(** The allele count inferred from the length of a GC list, when it is
    at most 26, and every index of [range(num_alleles - 1)] make a valid
    call of both lookups, and every position returned is inside a list
    of that length. *)
Theorem inferred_count_feeds_lookups gc_len n a verbose :
  get_num_of_alleles_from_gc gc_len = Some n ->
  n <= 26 ->
  In a (range 0 (n - 1)) ->
  exists full limited,
    snd (run (get_gc_indices_for_alt_allele (VInt n) (VInt a) verbose))
    = Ok full /\
    snd (run (get_limited_gc_indices_for_alt_allele (VInt n) (VInt a) verbose))
    = Ok limited /\
    forall p, In p full \/ In p limited -> 0 <= p < gc_len.
Proof.
  intros Hfound Hn Ha. apply in_range in Ha.
  apply found_is_triangular in Hfound as [Hn2 Hlen].
  assert (Hvalid : valid n a) by (unfold valid; lia).
  destruct (full_lookup_run (VInt n) (VInt a) n a eq_refl eq_refl Hvalid
              verbose []) as (pf & Hfull & _).
  destruct (limited_lookup_run (VInt n) (VInt a) n a eq_refl eq_refl Hvalid
              verbose []) as (pl & Hlim & _).
  unfold run. rewrite Hfull, Hlim. eexists _, _.
  split; [reflexivity|]. split; [reflexivity|].
  pose proof (pairs_upto_length n ltac:(lia)) as HL.
  intros p [Hp|Hp]; apply indices_where_in_range in Hp; lia.
Qed.

Lemma inferred_count_feeds_lookups_witness :
  (get_num_of_alleles_from_gc 10 = Some 4 /\ 4 <= 26 /\ In 2 (range 0 (4 - 1)))
  /\
  exists full limited,
    snd (run (get_gc_indices_for_alt_allele (VInt 4) (VInt 2) true))
    = Ok full /\
    snd (run (get_limited_gc_indices_for_alt_allele (VInt 4) (VInt 2) true))
    = Ok limited /\
    forall p, In p full \/ In p limited -> 0 <= p < 10.
Proof.
  assert (H1 : get_num_of_alleles_from_gc 10 = Some 4) by reflexivity.
  assert (H2 : In 2 (range 0 (4 - 1))) by (apply in_range; lia).
  split; [split; [exact H1|split; [lia|exact H2]]|].
  apply (inferred_count_feeds_lookups 10 4 2 true H1); [lia|exact H2].
Defined.

(** The positions of an allele do not move when alleles are added: the
    full lookup for [n] alleles returns the positions that the full
    lookup for [n' >= n] alleles returns below [n * (n + 1) / 2]. *)
Theorem full_lookup_stable num_alleles num_alleles' alt_idx n n' a verbose :
  isinstance_int num_alleles = Some n ->
  isinstance_int num_alleles' = Some n' ->
  isinstance_int alt_idx = Some a ->
  valid n a -> valid n' a -> n <= n' ->
  exists idxs idxs',
    snd (run (get_gc_indices_for_alt_allele num_alleles alt_idx verbose))
    = Ok idxs /\
    snd (run (get_gc_indices_for_alt_allele num_alleles' alt_idx verbose))
    = Ok idxs' /\
    forall p, In p idxs <-> In p idxs' /\ p < n * (n + 1) / 2.
Proof.
  intros Hn Hn' Ha Hv Hv' Hle.
  destruct (full_lookup_run num_alleles alt_idx n a Hn Ha Hv verbose [])
    as (pf & Hrun & _).
  destruct (full_lookup_run num_alleles' alt_idx n' a Hn' Ha Hv' verbose [])
    as (pf' & Hrun' & _).
  destruct Hv as [Hn1 Ha1], Hv' as [Hn1' _].
  unfold run. rewrite Hrun, Hrun'. eexists _, _.
  split; [reflexivity|]. split; [reflexivity|].
  pose proof (twice_triangular n) as HT.
  intros p. rewrite !in_full_iff by lia. split.
  - intros (i & j & Hj & Hi & Hm & ->). split.
    + exists i, j. repeat split; lia.
    + pose proof (position_bounds i j Hj) as B.
      assert ((i + 1) * (i + 2) <= n * (n + 1)) by nia. lia.
  - intros [(i & j & Hj & Hi & Hm & ->) Hlt].
    exists i, j. repeat split; try lia.
    pose proof (position_bounds i j Hj) as B.
    destruct (Z.lt_ge_cases i n) as [|Hge]; [assumption|exfalso].
    assert (n * (n + 1) <= i * (i + 1)) by nia. lia.
Qed.

Lemma full_lookup_stable_witness :
  (valid 3 1 /\ valid 5 1 /\ 3 <= 5) /\
  exists idxs idxs',
    snd (run (get_gc_indices_for_alt_allele (VInt 3) (VInt 1) false))
    = Ok idxs /\
    snd (run (get_gc_indices_for_alt_allele (VInt 5) (VInt 1) false))
    = Ok idxs' /\
    forall p, In p idxs <-> In p idxs' /\ p < 3 * (3 + 1) / 2.
Proof.
  assert (V : valid 3 1) by (unfold valid; lia).
  assert (V' : valid 5 1) by (unfold valid; lia).
  split; [split; [exact V|split; [exact V'|lia]]|].
  apply (full_lookup_stable (VInt 3) (VInt 5) (VInt 1) 3 5 1 false
           eq_refl eq_refl eq_refl V V').
  lia.
Defined.
